(** * Lead notification backend: a shallow embedding of [main.py]

    The module under study is a small FastAPI backend.  Its decision logic
    lives in five functions:

    - [send_email_via_sendgrid]  (REST provider transport),
    - [send_email_via_smtp]      (SMTP provider transport),
    - [send_notification]        (the dispatcher),
    - [email_test]               (manual diagnostic endpoint),
    - [create_contact_lead]      (lead ingestion handler).

    All five are effectful: they read the process environment, call out to
    the network and to the document store, and write log records.  They are
    embedded here as computations in a hand-written state-and-exception
    monad.  The state is the chronological trace of observable events; the
    outside world (environment variables and the behaviour of every external
    collaborator) is a read-only record the computations are run against.

    A Python [str] is represented by its UTF-8 encoding: slicing and
    lengths count characters, not bytes.  The source needs CPython 3.12 or
    later (a backslash inside an f-string expression, line 193); the
    built-ins are modelled as that version has them. *)

From Stdlib Require Import ZArith String Ascii List Lia Bool.
From stdpp Require Import base option gmap strings list pretty.
Import ListNotations.

Local Open Scope string_scope.
Local Open Scope Z_scope.

(** ** Python values and exceptions *)

Module Py.

(** An exception object: its class name and [str(e)].  Only subclasses of
    [Exception] are represented, which is what [except Exception] catches. *)
Record exn := Exn { exn_class : string; exn_str : string }.

(** What a call to an external collaborator does: return or raise. *)
Inductive outcome (A : Type) :=
| Returns (a : A)
| Raises (e : exn).
Arguments Returns {A} a.
Arguments Raises {A} e.

(** The values a dumped lead can hold: [None] or a [str]. *)
Inductive value :=
| VNone
| VStr (s : string).

(** Truthiness of a [str]: non-empty. *)
Definition str_truthy (s : string) : bool :=
  match s with
  | EmptyString => false
  | String _ _ => true
  end.

(** Truthiness of [os.getenv(k)]: set and non-empty. *)
Definition truthy (o : option string) : bool :=
  match o with
  | None => false
  | Some s => str_truthy s
  end.

(** [format(v)] inside an f-string. *)
Definition fmt (v : value) : string :=
  match v with
  | VNone => "None"
  | VStr s => s
  end.

(** [v or ''] for a value that is [None] or a [str]. *)
Definition or_empty (v : value) : string :=
  match v with
  | VNone => EmptyString
  | VStr s => if str_truthy s then s else EmptyString
  end.

(** [v or d] *)
Definition or_default (v : value) (d : string) : string :=
  match v with
  | VNone => d
  | VStr s => if str_truthy s then s else d
  end.

(** [d.get(k)] on a dict of values: [None] for a missing key. *)
Definition dict_get (d : gmap string value) (k : string) : value :=
  default VNone (d !! k).

Definition newline : ascii := "010"%char.

(** [s.replace(old, new)] for a one-character [old]. *)
Fixpoint replace_char (old : ascii) (new : string) (s : string) : string :=
  match s with
  | EmptyString => EmptyString
  | String c rest =>
      if Ascii.eqb c old
      then new ++ replace_char old new rest
      else String c (replace_char old new rest)
  end.

(** [s.lower()] on the ASCII letters.  The code only compares the result
    with the word true, and no character beyond ASCII lower-cases into one
    of its letters, so the comparison comes out as in Python. *)
Definition lower_char (c : ascii) : ascii :=
  let n := nat_of_ascii c in
  if andb (Nat.leb 65 n) (Nat.leb n 90) then ascii_of_nat (n + 32) else c.

Fixpoint lower (s : string) : string :=
  match s with
  | EmptyString => EmptyString
  | String c rest => String (lower_char c) (lower rest)
  end.

(** *** Characters

    A [string] holds the UTF-8 encoding of a Python [str]: a character is
    a lead byte together with the continuation bytes that follow it. *)

Definition is_continuation (c : ascii) : bool :=
  let n := nat_of_ascii c in
  andb (Nat.leb 128 n) (Nat.leb n 191).

(** [len(s)] *)
Fixpoint char_length (s : string) : nat :=
  match s with
  | EmptyString => 0
  | String c rest =>
      if is_continuation c then char_length rest else S (char_length rest)
  end.

(** [s[:n]]: the first [n] characters. *)
Fixpoint slice_to (n : nat) (s : string) : string :=
  match s with
  | EmptyString => EmptyString
  | String c rest =>
      if is_continuation c then String c (slice_to n rest)
      else match n with
           | O => EmptyString
           | S m => String c (slice_to m rest)
           end
  end.

(** Whether a string stops between two characters. *)
Definition at_boundary (rest : string) : bool :=
  match rest with
  | EmptyString => true
  | String c _ => negb (is_continuation c)
  end.

(** The code points of a string; [None] stands for a byte that does not
    belong to the encoding of a character. *)
Fixpoint code_points (s : string) : list (option N) :=
  let cont (c : ascii) : option N :=
    if is_continuation c then Some (N_of_ascii c - 128)%N else None in
  match s with
  | EmptyString => []
  | String b0 rest =>
      let n0 := N_of_ascii b0 in
      if (n0 <? 128)%N then Some n0 :: code_points rest
      else if andb (194 <=? n0)%N (n0 <=? 223)%N then
        match rest with
        | String b1 rest1 =>
            match cont b1 with
            | Some n1 => Some ((n0 - 192) * 64 + n1)%N :: code_points rest1
            | None => None :: code_points rest
            end
        | EmptyString => None :: code_points rest
        end
      else if andb (224 <=? n0)%N (n0 <=? 239)%N then
        match rest with
        | String b1 (String b2 rest2) =>
            match cont b1, cont b2 with
            | Some n1, Some n2 =>
                let cp := ((n0 - 224) * 4096 + n1 * 64 + n2)%N in
                if andb (2048 <=? cp)%N
                        (negb (andb (55296 <=? cp)%N (cp <=? 57343)%N))
                then Some cp :: code_points rest2
                else None :: code_points rest
            | _, _ => None :: code_points rest
            end
        | _ => None :: code_points rest
        end
      else if andb (240 <=? n0)%N (n0 <=? 244)%N then
        match rest with
        | String b1 (String b2 (String b3 rest3)) =>
            match cont b1, cont b2, cont b3 with
            | Some n1, Some n2, Some n3 =>
                let cp := ((n0 - 240) * 262144 + n1 * 4096 + n2 * 64 + n3)%N in
                if andb (65536 <=? cp)%N (cp <=? 1114111)%N
                then Some cp :: code_points rest3
                else None :: code_points rest
            | _, _, _ => None :: code_points rest
            end
        | _ => None :: code_points rest
        end
      else None :: code_points rest
  end.

(** *** [repr(s)] and [str(n)] *)

Definition hex_digit (n : N) : ascii :=
  ascii_of_N (if (n <? 10)%N then 48 + n else 87 + n).

(** How [repr] shows one byte inside the quotes [q].  Bytes of characters
    beyond ASCII are copied, which is what [repr] does for the printable
    ones. *)
Definition repr_byte (q : ascii) (c : ascii) : string :=
  let n := N_of_ascii c in
  if Ascii.eqb c "\"%char then "\\"
  else if Ascii.eqb c q then String "\"%char (String q EmptyString)
  else if (n =? 9)%N then "\t"
  else if (n =? 10)%N then "\n"
  else if (n =? 13)%N then "\r"
  else if orb (n <? 32)%N (n =? 127)%N
  then String "\"%char (String "x"%char
         (String (hex_digit (n / 16)) (String (hex_digit (n mod 16)) EmptyString)))
  else String c EmptyString.

Fixpoint str_contains (c : ascii) (s : string) : bool :=
  match s with
  | EmptyString => false
  | String d rest => orb (Ascii.eqb c d) (str_contains c rest)
  end.

Fixpoint repr_body (q : ascii) (s : string) : string :=
  match s with
  | EmptyString => EmptyString
  | String c rest => repr_byte q c ++ repr_body q rest
  end.

Definition repr (s : string) : string :=
  let q := if andb (str_contains "'"%char s) (negb (str_contains "034"%char s))
           then "034"%char else "'"%char in
  String q (repr_body q s ++ String q EmptyString).

(** *** [int(s)] on a [str], base 10

    As CPython 3.12 does it: decimal digits and spaces beyond ASCII are
    first turned into their ASCII counterparts (Unicode 15.0); then
    surrounding whitespace is skipped, one sign is allowed, the digits may
    be grouped by single underscores, and more than 4300 digits (the
    default of [sys.int_max_str_digits]) are refused.  Every failure is a
    [ValueError]. *)

(** The code points of the digit zero of every decimal number system. *)
Definition decimal_zeros : list N :=
  [48; 1632; 1776; 1984; 2406; 2534; 2662; 2790; 2918; 3046; 3174; 3302;
   3430; 3558; 3664; 3792; 3872; 4160; 4240; 6112; 6160; 6470; 6608; 6784;
   6800; 6992; 7088; 7232; 7248; 42528; 43216; 43264; 43472; 43504; 43600;
   44016; 65296; 66720; 68912; 69734; 69872; 69942; 70096; 70384; 70736;
   70864; 71248; 71360; 71472; 71904; 72016; 72784; 73040; 73120; 73552;
   92768; 92864; 93008; 120782; 120792; 120802; 120812; 120822; 123200;
   123632; 124144; 125264; 130032]%N.

Definition decimal_of (cp : N) : option N :=
  match List.find (fun z => andb (z <=? cp)%N (cp <? z + 10)%N) decimal_zeros with
  | Some z => Some (cp - z)%N
  | None => None
  end.

(** Whitespace beyond ASCII. *)
Definition unicode_space (cp : N) : bool :=
  orb (List.existsb (N.eqb cp) [133; 160; 5760; 8232; 8233; 8239; 8287; 12288]%N)
      (andb (8192 <=? cp)%N (cp <=? 8202)%N).

(** The ASCII character a code point counts as, if any. *)
Definition to_ascii_code (t : option N) : option N :=
  match t with
  | None => None
  | Some cp =>
      if (cp <? 127)%N then Some cp
      else if unicode_space cp then Some 32%N
      else match decimal_of cp with
           | Some d => Some (48 + d)%N
           | None => None
           end
  end.

(** The whitespace [int] skips: tab, line feed, vertical tab, form feed,
    carriage return, space. *)
Definition is_space (t : option N) : bool :=
  match t with
  | Some n => orb (andb (9 <=? n)%N (n <=? 13)%N) (n =? 32)%N
  | None => false
  end.

Definition digit_of (t : option N) : option Z :=
  match t with
  | Some n => if andb (48 <=? n)%N (n <=? 57)%N
              then Some (Z.of_N (n - 48)) else None
  | None => None
  end.

Definition is_char (c : N) (t : option N) : bool :=
  match t with
  | Some n => (n =? c)%N
  | None => false
  end.

Fixpoint skip_spaces (ts : list (option N)) : list (option N) :=
  match ts with
  | t :: rest => if is_space t then skip_spaces rest else ts
  | [] => []
  end.

(** The run of digits and underscores at the head of [ts]: its value, the
    number of digits and what follows; [None] for a doubled or trailing
    underscore.  [last_underscore] tells whether the previous character
    was an underscore. *)
Fixpoint scan_digits (acc : Z) (count : nat) (last_underscore : bool)
    (ts : list (option N)) : option (Z * nat * list (option N)) :=
  match ts with
  | t :: rest =>
      match digit_of t with
      | Some d => scan_digits (10 * acc + d) (S count) false rest
      | None =>
          if is_char 95 t
          then if last_underscore then None
               else scan_digits acc count true rest
          else if last_underscore then None else Some (acc, count, ts)
      end
  | [] => if last_underscore then None else Some (acc, count, [])
  end.

Inductive scanned :=
| Parsed (z : Z)
| TooManyDigits (count : nat)
| Invalid.

Definition max_str_digits : nat := 4300.

Definition scan_int (s : string) : scanned :=
  let ts := skip_spaces (List.map to_ascii_code (code_points s)) in
  let '(negative, ts) :=
    match ts with
    | t :: rest => if is_char 45 t then (true, rest)
                   else if is_char 43 t then (false, rest)
                   else (false, ts)
    | [] => (false, ts)
    end in
  match ts with
  | t :: _ =>
      if is_char 95 t then Invalid else
      match scan_digits 0 0 false ts with
      | None => Invalid
      | Some (z, count, rest) =>
          if Nat.ltb max_str_digits count then TooManyDigits count
          else if Nat.eqb count 0 then Invalid
          else match skip_spaces rest with
               | [] => Parsed (if negative then - z else z)
               | _ :: _ => Invalid
               end
      end
  | [] => Invalid
  end.

Definition parse_int (s : string) : option Z :=
  match scan_int s with
  | Parsed z => Some z
  | _ => None
  end.

Definition int (s : string) : outcome Z :=
  match scan_int s with
  | Parsed z => Returns z
  | TooManyDigits count =>
      Raises (Exn "ValueError"
                  ("Exceeds the limit (4300 digits) for integer string conversion: value has "
                   ++ pretty count
                   ++ " digits; use sys.set_int_max_str_digits() to increase the limit"))
  | Invalid =>
      Raises (Exn "ValueError"
                  ("invalid literal for int() with base 10: "
                   ++ slice_to 200 (repr s)))
  end.

End Py.

Export Py.

(** ** The outside world and what can be observed of a run *)

(** The three functions of the notification subsystem.  Entering one of
    them is recorded in the trace together with its arguments, which is
    what a test double standing in for the function would count. *)
Inductive func := F_sendgrid | F_smtp | F_notify.

Inductive level := INFO | WARNING | ERROR.

Inductive log_arg :=
| AInt (z : Z)
| AStr (s : string)
| AExn (e : exn).

(** The payload handed to [json.dumps]. *)
#[local] Set Warnings "-register-all".
Inductive json :=
| JStr (s : string)
| JArr (items : list json)
| JObj (fields : list (string * json)).

Record http_request := HttpRequest {
  req_url : string;
  req_headers : list (string * string);
  req_data : json;
  req_timeout : Z
}.

Record http_response := HttpResponse {
  status_code : Z;
  text : string
}.

(** A [MIMEMultipart] message: subtype, the three headers set by the
    code, and the attached [MIMEText] parts as (content, subtype). *)
Record mime := Mime {
  mime_subtype : string;
  mime_subject : string;
  mime_from : string;
  mime_to : string;
  mime_parts : list (string * string)
}.

Inductive event :=
| EvCall (f : func) (to_email subject html : string)
| EvCreateDocument (collection : string) (doc : gmap string value)
| EvHttpPost (req : http_request)
| EvSmtpConnect (host : string) (port : Z) (timeout : Z)
| EvSmtpStartTLS
| EvSmtpLogin (user password : string)
| EvSmtpSendmail (from_addr : string) (to_addrs : list string) (msg : string)
| EvSmtpQuit
| EvLog (lvl : level) (format : string) (args : list log_arg).

(** The environment variables, the behaviour of each collaborator and the
    hierarchy of the exception classes of the process ([issubclass] on
    their names).  A collaborator sees the history so far, so successive
    calls may behave differently. *)
Record world := World {
  environ : gmap string string;
  create_document : list event -> string -> gmap string value -> outcome string;
  requests_post : list event -> http_request -> outcome http_response;
  mime_as_string : mime -> outcome string;
  smtp_connect : list event -> string -> Z -> Z -> outcome unit;
  smtp_starttls : list event -> outcome unit;
  smtp_login : list event -> string -> string -> outcome unit;
  smtp_sendmail : list event -> string -> list string -> string -> outcome unit;
  smtp_quit : list event -> outcome unit;
  issubclass : string -> string -> bool
}.

(** ** The monad of traced, possibly raising computations *)

Definition M (A : Type) : Type := list event -> outcome A * list event.

#[global] Instance M_ret : MRet M := fun A a tr => (Returns a, tr).

#[global] Instance M_bind : MBind M := fun A B f c tr =>
  match c tr with
  | (Returns a, tr') => f a tr'
  | (Raises e, tr') => (Raises e, tr')
  end.

(** A pure step that may raise. *)
Definition lift {A} (o : outcome A) : M A := fun tr => (o, tr).

(** Record an event. *)
Definition emit (e : event) : M unit := fun tr => (Returns tt, (tr ++ [e])%list).

(** Call a collaborator: the call is recorded, its answer may depend on
    what happened before. *)
Definition call {A} (e : event) (o : list event -> outcome A) : M A :=
  fun tr => (o tr, (tr ++ [e])%list).

(** [try: body  except Exception as e: handler e] *)
Definition try_except {A} (body : M A) (handler : exn -> M A) : M A :=
  fun tr =>
    match body tr with
    | (Returns a, tr') => (Returns a, tr')
    | (Raises e, tr') => handler e tr'
    end.

(** [logger.info], [logger.warning], [logger.exception] *)
Definition log (lvl : level) (format : string) (args : list log_arg) : M unit :=
  emit (EvLog lvl format args).

Definition log_exception (format : string) (e : exn) : M unit :=
  emit (EvLog ERROR format [AExn e]).

(** What a handler hands back to the framework: a JSON body, or the
    [HTTPException] it raised. *)
Inductive reply (A : Type) :=
| Ok (body : A)
| HTTPException (status : Z) (detail : string).
Arguments Ok {A} body.
Arguments HTTPException {A} status detail.

(** ** The code of [main.py] *)

(** Modelled from the spec: [schemas.Contactlead] is imported by [main.py]
    but its declaration is not part of the sources.  The spec gives the lead
    as [{name: string, email: string, message: string (optional), source:
    string (optional, defaults to "website")}].  A field the submission
    leaves out (null) is [None] here. *)
Record Contactlead := mkContactlead {
  name : string;
  email : string;
  message : option string;
  source : option string
}.

Definition value_of (o : option string) : value :=
  match o with
  | None => VNone
  | Some s => VStr s
  end.

(** Modelled from the spec: [payload.model_dump()], the fields of the
    validated lead as a dict.  A source left out of the submission appears
    with the default the spec declares for it, "website". *)
Definition model_dump (payload : Contactlead) : gmap string value :=
  <["name" := VStr (name payload)]>
  (<["email" := VStr (email payload)]>
  (<["message" := value_of (message payload)]>
  (<["source" := VStr (default "website" (source payload))]> ∅))).

(** The body of [POST /api/email/test]. *)
Record EmailTest := mkEmailTest { to : option string }.

(** The JSON bodies the two handlers return. *)
Record contact_reply := ContactReply {
  status : string;
  reply_id : string;
  email_sent : bool
}.

Record email_test_reply := EmailTestReply {
  ok : bool;
  reply_to : string
}.

Section Backend.

Variable w : world.

(** [os.getenv(k)] and [os.getenv(k, d)] *)
Definition getenv (k : string) : option string := environ w !! k.

Definition getenv_or (k d : string) : string := default d (environ w !! k).

(** [o or d] for the result of [os.getenv(k)]. *)
Definition opt_or (o : option string) (d : string) : string :=
  match o with
  | Some s => if str_truthy s then s else d
  | None => d
  end.

(** The [str] held by a variable that has passed a truthiness guard. *)
Definition the (o : option string) : string := default EmptyString o.

Definition send_email_via_sendgrid (to_email subject html_content : string)
  : M bool :=
  emit (EvCall F_sendgrid to_email subject html_content);;
  let api_key := getenv "SENDGRID_API_KEY" in
  if negb (truthy api_key) then mret false else
  let from_email := getenv_or "EMAIL_FROM" "noreply@neonlabs.app" in
  let url := "https://api.sendgrid.com/v3/mail/send" in
  let payload :=
    JObj [("personalizations",
           JArr [JObj [("to", JArr [JObj [("email", JStr to_email)]])]]);
          ("from", JObj [("email", JStr from_email);
                         ("name", JStr (getenv_or "EMAIL_FROM_NAME" "Neon Labs"))]);
          ("subject", JStr subject);
          ("content", JArr [JObj [("type", JStr "text/html");
                                  ("value", JStr html_content)]])] in
  let headers :=
    [("Authorization", "Bearer " ++ the api_key);
     ("Content-Type", "application/json")] in
  try_except
    (let req := HttpRequest url headers payload 10 in
     resp ← call (EvHttpPost req) (fun tr => requests_post w tr req);
     if orb (status_code resp =? 200) (status_code resp =? 202) then
       log INFO "SendGrid email accepted for delivery" [];;
       mret true
     else
       log WARNING "SendGrid email failed: %s %s"
           [AInt (status_code resp); AStr (slice_to 200 (text resp))];;
       mret false)
    (fun e =>
       log_exception "Error sending email via SendGrid: %s" e;;
       mret false).

Definition send_email_via_smtp (to_email subject html_content : string)
  : M bool :=
  emit (EvCall F_smtp to_email subject html_content);;
  let host := getenv "SMTP_HOST" in
  port ← lift (int (getenv_or "SMTP_PORT" "587"));
  let user := getenv "SMTP_USER" in
  let password := getenv "SMTP_PASS" in
  let use_tls := String.eqb (lower (getenv_or "SMTP_STARTTLS" "true")) "true" in
  let from_email := getenv_or "EMAIL_FROM" (opt_or user "noreply@neonlabs.app") in
  if orb (negb (truthy host)) (orb (negb (truthy user)) (negb (truthy password)))
  then mret false else
  try_except
    (let msg := Mime "alternative" subject from_email to_email
                     [(html_content, "html")] in
     call (EvSmtpConnect (the host) port 15)
          (fun tr => smtp_connect w tr (the host) port 15);;
     (if use_tls then call EvSmtpStartTLS (smtp_starttls w) else mret tt);;
     call (EvSmtpLogin (the user) (the password))
          (fun tr => smtp_login w tr (the user) (the password));;
     body ← lift (mime_as_string w msg);
     call (EvSmtpSendmail from_email [to_email] body)
          (fun tr => smtp_sendmail w tr from_email [to_email] body);;
     call EvSmtpQuit (smtp_quit w);;
     log INFO "SMTP email sent successfully" [];;
     mret true)
    (fun e =>
       log_exception "Error sending email via SMTP: %s" e;;
       mret false).

Definition send_notification (to_email subject html : string) : M bool :=
  emit (EvCall F_notify to_email subject html);;
  sent ← (if truthy (getenv "SENDGRID_API_KEY")
          then send_email_via_sendgrid to_email subject html
          else mret false);
  if (sent : bool) then mret true else
  if andb (truthy (getenv "SMTP_HOST"))
          (andb (truthy (getenv "SMTP_USER")) (truthy (getenv "SMTP_PASS")))
  then send_email_via_smtp to_email subject html
  else
    log WARNING
        "No email provider configured. Set SENDGRID_API_KEY or SMTP_* env vars to enable emails."
        [];;
    mret false.

Definition default_recipient : string := "arslan.rai2662@gmail.com".

Definition email_test_html : string :=
"
    <h2>Email Test</h2>
    <p>If you're seeing this, your email provider is configured correctly.</p>
    <p>Source: Backend test endpoint.</p>
    ".

Definition email_test (body : EmailTest) : M (reply email_test_reply) :=
  let to_email := opt_or (to body) (getenv_or "EMAIL_TO" default_recipient) in
  let subject := "Test: Email configuration" in
  let html := email_test_html in
  try_except
    (ok ← send_notification to_email subject html;
     mret (Ok (EmailTestReply ok to_email)))
    (fun e => mret (HTTPException 500 (exn_str e))).

Definition lead_subject (lead_dict : gmap string value) : string :=
  "New Website Lead: " ++ fmt (dict_get lead_dict "name").

Definition lead_html (lead_dict : gmap string value) (inserted_id : string)
  : string :=
"
        <h2>New Contact Lead</h2>
        <p><strong>Name:</strong> " ++ fmt (dict_get lead_dict "name") ++ "</p>
        <p><strong>Email:</strong> " ++ fmt (dict_get lead_dict "email") ++ "</p>
        <p><strong>Message:</strong><br/>"
    ++ replace_char newline "<br/>" (or_empty (dict_get lead_dict "message"))
    ++ "</p>
        <p><strong>Source:</strong> "
    ++ or_default (dict_get lead_dict "source") "website" ++ "</p>
        <p><em>Lead ID:</em> " ++ inserted_id ++ "</p>
        ".

Definition create_contact_lead (payload : Contactlead)
  : M (reply contact_reply) :=
  try_except
    (let lead_dict := model_dump payload in
     inserted_id ← call (EvCreateDocument "contactlead" lead_dict)
                        (fun tr => create_document w tr "contactlead" lead_dict);
     let to_email := getenv_or "EMAIL_TO" default_recipient in
     let subject := lead_subject lead_dict in
     let html := lead_html lead_dict inserted_id in
     email_sent ← send_notification to_email subject html;
     mret (Ok (ContactReply "ok" inserted_id email_sent)))
    (fun e => mret (HTTPException 500 (exn_str e))).

End Backend.

(** ** Observations on traces *)

(** How many times a function was entered. *)
Definition is_call (f : func) (e : event) : bool :=
  match e, f with
  | EvCall F_sendgrid _ _ _, F_sendgrid
  | EvCall F_smtp _ _ _, F_smtp
  | EvCall F_notify _ _ _, F_notify => true
  | _, _ => false
  end.

Definition calls (f : func) (tr : list event) : nat :=
  length (List.filter (is_call f) tr).

(** Outbound network activity: the HTTPS request and every operation on an
    SMTP session. *)
Definition is_network (e : event) : bool :=
  match e with
  | EvHttpPost _ | EvSmtpConnect _ _ _ | EvSmtpStartTLS | EvSmtpLogin _ _
  | EvSmtpSendmail _ _ _ | EvSmtpQuit => true
  | _ => false
  end.

Definition network_calls (tr : list event) : list event :=
  List.filter is_network tr.

(** Anything that touches the SMTP provider: entering its sender or
    operating on a session. *)
Definition is_smtp (e : event) : bool :=
  match e with
  | EvCall F_smtp _ _ _ | EvSmtpConnect _ _ _ | EvSmtpStartTLS
  | EvSmtpLogin _ _ | EvSmtpSendmail _ _ _ | EvSmtpQuit => true
  | _ => false
  end.

Definition smtp_activity (tr : list event) : list event :=
  List.filter is_smtp tr.

(** The recipients the dispatcher was asked to notify, in order. *)
Definition notified (tr : list event) : list string :=
  omap (fun e => match e with
                 | EvCall F_notify to_email _ _ => Some to_email
                 | _ => None
                 end) tr.

(** The documents handed to the document store, in order. *)
Definition persisted (tr : list event) : list (gmap string value) :=
  omap (fun e => match e with
                 | EvCreateDocument _ doc => Some doc
                 | _ => None
                 end) tr.

(** Provider configuration, as the dispatcher tests it. *)
Definition rest_configured (w : world) : bool :=
  truthy (getenv w "SENDGRID_API_KEY").

Definition smtp_configured (w : world) : bool :=
  andb (truthy (getenv w "SMTP_HOST"))
       (andb (truthy (getenv w "SMTP_USER")) (truthy (getenv w "SMTP_PASS"))).

(** The request [send_email_via_sendgrid] submits. *)
Definition sendgrid_request (w : world) (to_email subject html_content : string)
  : http_request :=
  HttpRequest
    "https://api.sendgrid.com/v3/mail/send"
    [("Authorization", "Bearer " ++ the (getenv w "SENDGRID_API_KEY"));
     ("Content-Type", "application/json")]
    (JObj [("personalizations",
            JArr [JObj [("to", JArr [JObj [("email", JStr to_email)]])]]);
           ("from", JObj [("email", JStr (getenv_or w "EMAIL_FROM" "noreply@neonlabs.app"));
                          ("name", JStr (getenv_or w "EMAIL_FROM_NAME" "Neon Labs"))]);
           ("subject", JStr subject);
           ("content", JArr [JObj [("type", JStr "text/html");
                                   ("value", JStr html_content)]])])
    10.

Definition no_provider_warning : event :=
  EvLog WARNING
    "No email provider configured. Set SENDGRID_API_KEY or SMTP_* env vars to enable emails."
    [].

(** The status codes [send_email_via_sendgrid] takes for success. *)
Definition accepted (resp : http_response) : bool :=
  orb (status_code resp =? 200) (status_code resp =? 202).

(** Events of an SMTP session and of logging, the only ones the SMTP
    sender produces after it has been entered. *)
Definition is_session_or_log (e : event) : bool :=
  match e with
  | EvSmtpConnect _ _ _ | EvSmtpStartTLS | EvSmtpLogin _ _
  | EvSmtpSendmail _ _ _ | EvSmtpQuit | EvLog _ _ _ => true
  | _ => false
  end.

(** Events the REST sender produces after it has been entered. *)
Definition is_http_or_log (e : event) : bool :=
  match e with
  | EvHttpPost _ | EvLog _ _ _ => true
  | _ => false
  end.

(** Events the dispatcher produces after it has been entered: everything
    but a further entry into itself or a write to the document store. *)
Definition is_delivery (e : event) : bool :=
  match e with
  | EvCall F_notify _ _ _ | EvCreateDocument _ _ => false
  | _ => true
  end.

(** ** Scenarios

    Concrete worlds used to exercise the statements below.  In [calm]
    every collaborator succeeds: the store answers ["L1"], the REST
    endpoint answers 202, every SMTP operation goes through. *)

(** The exception classes of the standard library that matter here. *)
Definition builtin_issubclass (cls base : string) : bool :=
  orb (String.eqb cls base)
      (orb (String.eqb base "Exception")
           (andb (String.eqb base "ImportError")
                 (String.eqb cls "ModuleNotFoundError"))).

Definition calm (env : gmap string string) : world :=
  World env
        (fun _ _ _ => Returns "L1")
        (fun _ _ => Returns (HttpResponse 202 EmptyString))
        (fun _ => Returns "MIME")
        (fun _ _ _ _ => Returns tt)
        (fun _ => Returns tt)
        (fun _ _ _ => Returns tt)
        (fun _ _ _ _ => Returns tt)
        (fun _ => Returns tt)
        builtin_issubclass.

Definition smtp_env : gmap string string :=
  <["SMTP_HOST" := "mail.example.org"]>
  (<["SMTP_USER" := "mailer"]>
  (<["SMTP_PASS" := "secret"]> ∅)).

(** No provider configured. *)
Definition w_none : world := calm ∅.

(** Both providers configured, every collaborator succeeds. *)
Definition w_both : world := calm (<["SENDGRID_API_KEY" := "SG.key"]> smtp_env).

(** Only SMTP configured. *)
Definition w_smtp : world := calm smtp_env.

(** Both configured, the REST endpoint answers 500. *)
Definition w_rest_500 : world :=
  World (<["SENDGRID_API_KEY" := "SG.key"]> smtp_env)
        (fun _ _ _ => Returns "L1")
        (fun _ _ => Returns (HttpResponse 500 "quota exceeded"))
        (fun _ => Returns "MIME")
        (fun _ _ _ _ => Returns tt)
        (fun _ => Returns tt)
        (fun _ _ _ => Returns tt)
        (fun _ _ _ _ => Returns tt)
        (fun _ => Returns tt)
        builtin_issubclass.

(** Only the REST provider configured, the connection times out. *)
Definition w_rest_timeout : world :=
  World (<["SENDGRID_API_KEY" := "SG.key"]> ∅)
        (fun _ _ _ => Returns "L1")
        (fun _ _ => Raises (Exn "ConnectTimeout" "timed out"))
        (fun _ => Returns "MIME")
        (fun _ _ _ _ => Returns tt)
        (fun _ => Returns tt)
        (fun _ _ _ => Returns tt)
        (fun _ _ _ _ => Returns tt)
        (fun _ => Returns tt)
        builtin_issubclass.

(** The document store is down. *)
Definition w_store_down : world :=
  World (<["SENDGRID_API_KEY" := "SG.key"]> smtp_env)
        (fun _ _ _ => Raises (Exn "Exception" "Database not available"))
        (fun _ _ => Returns (HttpResponse 202 EmptyString))
        (fun _ => Returns "MIME")
        (fun _ _ _ _ => Returns tt)
        (fun _ => Returns tt)
        (fun _ _ _ => Returns tt)
        (fun _ _ _ _ => Returns tt)
        (fun _ => Returns tt)
        builtin_issubclass.

(** SMTP configured, but [SMTP_PORT] is not a number. *)
Definition w_bad_port : world := calm (<["SMTP_PORT" := "abc"]> smtp_env).

(** Nothing configured but a malformed [SMTP_PORT]. *)
Definition w_only_bad_port : world := calm (<["SMTP_PORT" := "abc"]> ∅).

(** SMTP configured, the server rejects the credentials. *)
Definition w_login_fails : world :=
  World smtp_env
        (fun _ _ _ => Returns "L1")
        (fun _ _ => Returns (HttpResponse 202 EmptyString))
        (fun _ => Returns "MIME")
        (fun _ _ _ _ => Returns tt)
        (fun _ => Returns tt)
        (fun _ _ _ => Raises (Exn "SMTPAuthenticationError" "(535, b'5.7.8 Bad credentials')"))
        (fun _ _ _ _ => Returns tt)
        (fun _ => Returns tt)
        builtin_issubclass.

(** The lead of the spec's scenario: source is null. *)
Definition lead_A : Contactlead := mkContactlead "A" "a@x.com" (Some "hi") None.


(** ** The diagnostic endpoint [GET /test]

    [test_database] reads only the environment and the [database] module;
    it logs nothing.  String literals hold the UTF-8 bytes of the source
    text. *)

(** The object [db] of the [database] module: its [name] attribute when it
    has one, and what [db.list_collection_names()] does. *)
Record db_handle := DbHandle {
  db_name : option string;
  list_collection_names : outcome (list string)
}.

(** The values of the response dict: [None], a [str], a list of [str]. *)
Inductive resp_value :=
| RNone
| RStr (s : string)
| RList (items : list string).

(** [except ImportError]: the class itself and every subclass of it. *)
Definition is_ImportError (w : world) (e : exn) : bool :=
  issubclass w (exn_class e) "ImportError".

(** [import_db] is what [from database import db] does: it raises, or
    binds [db] to [None] or to a handle. *)
Definition test_database (w : world) (import_db : outcome (option db_handle))
  : gmap string resp_value :=
  let response : gmap string resp_value :=
    <["backend" := RStr "✅ Running"]>
    (<["database" := RStr "❌ Not Available"]>
    (<["database_url" := RNone]>
    (<["database_name" := RNone]>
    (<["connection_status" := RStr "Not Connected"]>
    (<["collections" := RList []]> ∅))))) in
  let response :=
    match import_db with
    | Returns (Some db) =>
        let response := <["database" := RStr "✅ Available"]> response in
        let response := <["database_url" := RStr "✅ Configured"]> response in
        let response :=
          <["database_name" := RStr (default "✅ Connected" (db_name db))]>
            response in
        let response := <["connection_status" := RStr "Connected"]> response in
        match list_collection_names db with
        | Returns collections =>
            let response :=
              <["collections" := RList (take 10 collections)]> response in
            <["database" := RStr "✅ Connected & Working"]> response
        | Raises e =>
            <["database" :=
                RStr ("⚠️  Connected but Error: " ++ slice_to 50 (exn_str e))]>
              response
        end
    | Returns None =>
        <["database" := RStr "⚠️  Available but not initialized"]> response
    | Raises e =>
        if is_ImportError w e
        then <["database" :=
                 RStr "❌ Database module not found (run enable-database first)"]>
               response
        else <["database" := RStr ("❌ Error: " ++ slice_to 50 (exn_str e))]>
               response
    end in
  let response :=
    <["database_url" :=
        RStr (if truthy (getenv w "DATABASE_URL") then "✅ Set" else "❌ Not Set")]>
      response in
  let response :=
    <["database_name" :=
        RStr (if truthy (getenv w "DATABASE_NAME") then "✅ Set" else "❌ Not Set")]>
      response in
  response.

(** ** Further observations *)

(** How many events of a kind a trace holds. *)
Definition count (p : event -> bool) (tr : list event) : nat :=
  length (List.filter p tr).

Definition is_post (e : event) : bool :=
  match e with EvHttpPost _ => true | _ => false end.

Definition is_connect (e : event) : bool :=
  match e with EvSmtpConnect _ _ _ => true | _ => false end.

(** The flag and the sender address [send_email_via_smtp] derives from
    the environment. *)
Definition smtp_use_tls (w : world) : bool :=
  String.eqb (lower (getenv_or w "SMTP_STARTTLS" "true")) "true".

Definition smtp_from (w : world) : string :=
  getenv_or w "EMAIL_FROM" (opt_or (getenv w "SMTP_USER") "noreply@neonlabs.app").

(** The message [send_email_via_smtp] builds. *)
Definition smtp_message (w : world) (to_email subject html_content : string)
  : mime :=
  Mime "alternative" subject (smtp_from w) to_email [(html_content, "html")].

(** The operations of a complete SMTP session, in order. *)
Definition smtp_script (w : world) (port : Z) (to_email body : string)
  : list event :=
  (EvSmtpConnect (the (getenv w "SMTP_HOST")) port 15
   :: (if smtp_use_tls w then [EvSmtpStartTLS] else [])
   ++ [EvSmtpLogin (the (getenv w "SMTP_USER")) (the (getenv w "SMTP_PASS"));
       EvSmtpSendmail (smtp_from w) [to_email] body;
       EvSmtpQuit])%list.

(** ** Steps carried out until one fails *)

(** A step: the event it records, if any, and the collaborator that
    answers it. *)
Definition step : Type := option event * (list event -> outcome unit).

(** Carry the steps out in order and stop at the first that raises; the
    result is the exception that stopped the run, if any, and the trace. *)
Fixpoint perform (steps : list step) (tr : list event)
  : option exn * list event :=
  match steps with
  | [] => (None, tr)
  | (ev, answer) :: rest =>
      let tr' := match ev with
                 | Some e => (tr ++ [e])%list
                 | None => tr
                 end in
      match answer tr with
      | Returns _ => perform rest tr'
      | Raises e => (Some e, tr')
      end
  end.

(** The steps of [send_email_via_smtp] after its guard: the five
    operations on the session, and the rendering of the message between
    login and sendmail. *)
Definition smtp_steps (w : world) (port : Z) (to_email subject html : string)
  : list step :=
  let msg := smtp_message w to_email subject html in
  let body := match mime_as_string w msg with
              | Returns b => b
              | Raises _ => EmptyString
              end in
  ((Some (EvSmtpConnect (the (getenv w "SMTP_HOST")) port 15),
    fun h => smtp_connect w h (the (getenv w "SMTP_HOST")) port 15)
   :: (if smtp_use_tls w
       then [(Some EvSmtpStartTLS, smtp_starttls w)]
       else [])
   ++ [(Some (EvSmtpLogin (the (getenv w "SMTP_USER"))
                          (the (getenv w "SMTP_PASS"))),
        fun h => smtp_login w h (the (getenv w "SMTP_USER"))
                             (the (getenv w "SMTP_PASS")));
       (None,
        fun _ => match mime_as_string w msg with
                 | Returns _ => Returns tt
                 | Raises e => Raises e
                 end);
       (Some (EvSmtpSendmail (smtp_from w) [to_email] body),
        fun h => smtp_sendmail w h (smtp_from w) [to_email] body);
       (Some EvSmtpQuit, smtp_quit w)])%list.

(** ** Port settings that leave no doubt *)

Definition is_ascii_digit (c : ascii) : bool :=
  let n := nat_of_ascii c in
  andb (Nat.leb 48 n) (Nat.leb n 57).

Definition is_ascii_letter (c : ascii) : bool :=
  let n := nat_of_ascii c in
  orb (andb (Nat.leb 65 n) (Nat.leb n 90)) (andb (Nat.leb 97 n) (Nat.leb n 122)).

Fixpoint all_chars (p : ascii -> bool) (s : string) : bool :=
  match s with
  | EmptyString => true
  | String c rest => andb (p c) (all_chars p rest)
  end.

(** Between one and 640 of the digits 0 to 9 and nothing else: a literal
    that [int] converts under every setting of the digit limit. *)
Definition plain_digits (s : string) : bool :=
  andb (str_truthy s)
       (andb (all_chars is_ascii_digit s) (Nat.leb (String.length s) 640)).

(** Between one and 198 of the letters a to z and A to Z: a literal that
    [int] refuses and shows in full in its message. *)
Definition plain_letters (s : string) : bool :=
  andb (str_truthy s)
       (andb (all_chars is_ascii_letter s) (Nat.leb (String.length s) 198)).

(** [SMTP_PORT] is unset, or is a plain number: the port then is [port]. *)
Definition port_reads (w : world) (port : Z) : Prop :=
  match getenv w "SMTP_PORT" with
  | None => port = 587
  | Some s => plain_digits s = true /\ parse_int s = Some port
  end.

(** [n] copies of [s]. *)
Fixpoint repeat_str (n : nat) (s : string) : string :=
  match n with
  | O => EmptyString
  | S m => s ++ repeat_str m s
  end.

(** Further scenarios. *)

(** Both providers configured, the REST endpoint answers 500 with a body
    of 250 characters, some of them beyond ASCII. *)
Definition w_rest_500_long : world :=
  World (<["SENDGRID_API_KEY" := "SG.key"]> smtp_env)
        (fun _ _ _ => Returns "L1")
        (fun _ _ => Returns (HttpResponse 500 (repeat_str 25 "é123456789")))
        (fun _ => Returns "MIME")
        (fun _ _ _ _ => Returns tt)
        (fun _ => Returns tt)
        (fun _ _ _ => Returns tt)
        (fun _ _ _ _ => Returns tt)
        (fun _ => Returns tt)
        builtin_issubclass.

(** SMTP configured on port 2525. *)
Definition w_smtp_2525 : world := calm (<["SMTP_PORT" := "2525"]> smtp_env).

(** SMTP on port 2525 with STARTTLS switched off. *)
Definition w_smtp_2525_no_tls : world :=
  calm (<["SMTP_PORT" := "2525"]> (<["SMTP_STARTTLS" := "yes"]> smtp_env)).

(** A database module whose import fails with an error of its own. *)
Definition import_misconfigured : outcome (option db_handle) :=
  Raises (Exn "ConfigurationError"
              "DATABASE_URL is not a valid MongoDB URI: «mongo://»; expected mongodb:// or mongodb+srv://").



(** Only the REST provider configured, the endpoint answers 500. *)
Definition w_rest_only_500 : world :=
  World (<["SENDGRID_API_KEY" := "SG.key"]> ∅)
        (fun _ _ _ => Returns "L1")
        (fun _ _ => Returns (HttpResponse 500 "quota exceeded"))
        (fun _ => Returns "MIME")
        (fun _ _ _ _ => Returns tt)
        (fun _ => Returns tt)
        (fun _ _ _ => Returns tt)
        (fun _ _ _ _ => Returns tt)
        (fun _ => Returns tt)
        builtin_issubclass.

(** SMTP configured, nothing listens on the port. *)
Definition w_connect_refused : world :=
  World smtp_env
        (fun _ _ _ => Returns "L1")
        (fun _ _ => Returns (HttpResponse 202 EmptyString))
        (fun _ => Returns "MIME")
        (fun _ _ _ _ => Raises (Exn "ConnectionRefusedError" "[Errno 111] Connection refused"))
        (fun _ => Returns tt)
        (fun _ _ _ => Returns tt)
        (fun _ _ _ _ => Returns tt)
        (fun _ => Returns tt)
        builtin_issubclass.

(** Nothing configured but an empty [EMAIL_TO]. *)
Definition w_empty_email_to : world := calm (<["EMAIL_TO" := EmptyString]> ∅).

(** A database whose listing has twelve collections. *)
Definition db_twelve : db_handle :=
  DbHandle (Some "neon")
           (Returns ["c01"; "c02"; "c03"; "c04"; "c05"; "c06";
                     "c07"; "c08"; "c09"; "c10"; "c11"; "c12"]).

(** A database whose listing fails. *)
Definition db_unreachable : db_handle :=
  DbHandle (Some "neon")
           (Raises (Exn "ServerSelectionTimeoutError"
                        "localhost:27017: [Errno 111] Connection refused, Timeout: 30s, Topology Description: unknown")).

(** ** Proof support *)

Local Open Scope list_scope.

(** Expose the state-passing form of a computation. *)
Ltac run_monad :=
  unfold log, log_exception;
  unfold mbind, M_bind, mret, M_ret, emit, call, lift, try_except;
  cbn beta iota.

Ltac tidy_trace := repeat rewrite <- app_assoc; cbn [app].

(** *** Slicing *)

Lemma slice_to_split (n : nat) (s : string) :
  exists rest, s = (slice_to n s ++ rest)%string /\ at_boundary rest = true.
Proof.
  revert n. induction s as [|c s IH]; intros n; cbn.
  - exists EmptyString. split; reflexivity.
  - destruct (is_continuation c) eqn:Hc.
    + destruct (IH n) as (rest & Hs & Hb). exists rest.
      split; [change (String c s = String c (slice_to n s ++ rest)%string);
              f_equal; exact Hs | exact Hb].
    + destruct n as [|m].
      * exists (String c s). split; [reflexivity|]. cbn. rewrite Hc. reflexivity.
      * destruct (IH m) as (rest & Hs & Hb). exists rest.
        split; [change (String c s = String c (slice_to m s ++ rest)%string);
                f_equal; exact Hs | exact Hb].
Qed.

Lemma slice_to_char_length (n : nat) (s : string) :
  char_length (slice_to n s) = Nat.min n (char_length s).
Proof.
  revert n. induction s as [|c s IH]; intros n; cbn.
  - destruct n; reflexivity.
  - destruct (is_continuation c) eqn:Hc; cbn; rewrite ?Hc.
    + apply IH.
    + destruct n as [|m]; cbn; rewrite ?Hc; [reflexivity|].
      rewrite IH. reflexivity.
Qed.

Lemma slice_to_all (n : nat) (s : string) :
  (char_length s <= n)%nat -> slice_to n s = s.
Proof.
  revert n. induction s as [|c s IH]; intros n; cbn; [reflexivity|].
  destruct (is_continuation c).
  - intros H. f_equal. apply IH, H.
  - destruct n as [|m]; [lia|]. intros H. f_equal. apply IH. lia.
Qed.

Lemma char_length_le (s : string) : (char_length s <= String.length s)%nat.
Proof.
  induction s as [|c s IH]; cbn; [lia|]. destruct (is_continuation c); lia.
Qed.

Lemma char_length_app (s t : string) :
  char_length (s ++ t) = (char_length s + char_length t)%nat.
Proof.
  induction s as [|c s IH]; [reflexivity|].
  change ((String c s ++ t)%string) with (String c (s ++ t)%string).
  cbn [char_length]. destruct (is_continuation c); rewrite IH; reflexivity.
Qed.

Lemma string_length_app (s t : string) :
  String.length (s ++ t) = (String.length s + String.length t)%nat.
Proof.
  induction s as [|c s IH]; [reflexivity|].
  change ((String c s ++ t)%string) with (String c (s ++ t)%string).
  cbn [String.length]. rewrite IH. reflexivity.
Qed.

(** The three facts fix the slice: it is the only prefix of [s] that ends
    between two characters and holds [min n (len s)] of them. *)
Lemma slice_to_unique (n : nat) (s p rest : string) :
  s = (p ++ rest)%string ->
  at_boundary rest = true ->
  char_length p = Nat.min n (char_length s) ->
  p = slice_to n s.
Proof.
  revert n p. induction s as [|c s IH]; intros n p Hs Hb Hlen.
  - destruct p; [reflexivity | discriminate Hs].
  - cbn [slice_to]. cbn [char_length] in Hlen.
    destruct p as [|d p].
    + change (String c s = rest) in Hs. subst rest. cbn in Hb. cbn in Hlen.
      destruct (is_continuation c); [discriminate Hb|].
      destruct n; [reflexivity | discriminate Hlen].
    + change (String c s = String d (p ++ rest)%string) in Hs.
      injection Hs as <- Hs. cbn [char_length] in Hlen.
      destruct (is_continuation c).
      * f_equal. apply (IH n p Hs Hb Hlen).
      * destruct n as [|m]; [discriminate Hlen|].
        f_equal. apply (IH m p Hs Hb). cbn in Hlen. lia.
Qed.

(** *** [int] *)

Lemma int_parses (s : string) (z : Z) :
  parse_int s = Some z -> int s = Returns z.
Proof.
  unfold parse_int, int. destruct (scan_int s); intros H; try discriminate H.
  injection H as ->. reflexivity.
Qed.

Lemma int_fails (s : string) :
  parse_int s = None ->
  exists e, int s = Raises e /\ exn_class e = "ValueError".
Proof.
  unfold parse_int, int. destruct (scan_int s); intros H; try discriminate H;
    eexists; split; reflexivity.
Qed.

(** ** Run equations of the REST sender *)

Lemma sendgrid_run (w : world) (to_email subject html : string) (tr : list event) :
  send_email_via_sendgrid w to_email subject html tr =
  let req := sendgrid_request w to_email subject html in
  let entered := EvCall F_sendgrid to_email subject html in
  if rest_configured w then
    match requests_post w (tr ++ [entered]) req with
    | Returns resp =>
        if accepted resp
        then (Returns true,
              tr ++ [entered; EvHttpPost req;
                     EvLog INFO "SendGrid email accepted for delivery" []])
        else (Returns false,
              tr ++ [entered; EvHttpPost req;
                     EvLog WARNING "SendGrid email failed: %s %s"
                           [AInt (status_code resp);
                            AStr (slice_to 200 (text resp))]])
    | Raises e =>
        (Returns false,
         tr ++ [entered; EvHttpPost req;
                EvLog ERROR "Error sending email via SendGrid: %s" [AExn e]])
    end
  else (Returns false, tr ++ [entered]).
Proof.
  unfold send_email_via_sendgrid, rest_configured, sendgrid_request, accepted.
  run_monad.
  destruct (truthy (getenv w "SENDGRID_API_KEY")); cbn [negb]; [|reflexivity].
  destruct (requests_post _ _ _) as [resp|e]; [|tidy_trace; reflexivity].
  destruct (_ || _); tidy_trace; reflexivity.
Qed.

Lemma sendgrid_emits (w : world) (to_email subject html : string) (tr : list event) :
  exists b es,
    send_email_via_sendgrid w to_email subject html tr =
      (Returns b, tr ++ EvCall F_sendgrid to_email subject html :: es) /\
    forallb is_http_or_log es = true.
Proof.
  rewrite sendgrid_run. cbn zeta.
  destruct (rest_configured w).
  - destruct (requests_post _ _ _) as [resp|e]; [destruct (accepted resp)|];
      eexists _, _; (split; [reflexivity|reflexivity]).
  - exists false, []. split; reflexivity.
Qed.

Lemma smtp_emits (w : world) (to_email subject html : string) (tr : list event) :
  exists es,
    snd (send_email_via_smtp w to_email subject html tr) =
      tr ++ EvCall F_smtp to_email subject html :: es /\
    forallb is_session_or_log es = true.
Proof.
  unfold send_email_via_smtp. run_monad.
  repeat (case_match; simplify_eq; run_monad;
          try (tidy_trace; cbn [snd]; eexists; split; reflexivity)).
Qed.

Lemma notify_run (w : world) (to_email subject html : string) (tr : list event) :
  send_notification w to_email subject html tr =
  let tr0 := tr ++ [EvCall F_notify to_email subject html] in
  match (if rest_configured w
         then send_email_via_sendgrid w to_email subject html tr0
         else (Returns false, tr0)) with
  | (Returns true, tr1) => (Returns true, tr1)
  | (Returns false, tr1) =>
      if smtp_configured w
      then send_email_via_smtp w to_email subject html tr1
      else (Returns false, tr1 ++ [no_provider_warning])
  | (Raises e, tr1) => (Raises e, tr1)
  end.
Proof.
  unfold send_notification, rest_configured, smtp_configured, no_provider_warning.
  run_monad.
  destruct (truthy (getenv w "SENDGRID_API_KEY")).
  - destruct (send_email_via_sendgrid _ _ _ _ _) as [[[|]|e] tr1];
      try reflexivity.
    destruct (_ && _); reflexivity.
  - destruct (_ && _); reflexivity.
Qed.

(** ** Facts about filters over emitted events *)

Lemma forallb_filter_nil (p q : event -> bool) (es : list event) :
  forallb p es = true ->
  (forall e, p e = true -> q e = false) ->
  List.filter q es = [].
Proof.
  intros Hall Hpq. induction es as [|e es IH]; [reflexivity|].
  cbn in Hall. apply andb_true_iff in Hall as [He Hes].
  cbn. rewrite (Hpq e He). auto.
Qed.

Lemma forallb_omap_nil {A} (p : event -> bool) (f : event -> option A)
    (es : list event) :
  forallb p es = true ->
  (forall e, p e = true -> f e = None) ->
  omap f es = [].
Proof.
  intros Hall Hpf. induction es as [|e es IH]; [reflexivity|].
  cbn in Hall. apply andb_true_iff in Hall as [He Hes].
  cbn. rewrite (Hpf e He). auto.
Qed.

(** ** Run equations of the dispatcher and the handlers *)

Lemma forallb_weaken (p q : event -> bool) (es : list event) :
  (forall e, p e = true -> q e = true) ->
  forallb p es = true -> forallb q es = true.
Proof.
  intros Hpq. induction es as [|e es IH]; [reflexivity|]. cbn.
  rewrite !andb_true_iff. intros [He Hes]. auto.
Qed.

(** The dispatcher records its own entry once, and whatever follows is
    the work of the senders. *)
Lemma notify_emits (w : world) (to_email subject html : string) (tr : list event) :
  exists es,
    snd (send_notification w to_email subject html tr) =
      tr ++ EvCall F_notify to_email subject html :: es /\
    forallb is_delivery es = true.
Proof.
  rewrite notify_run. cbn zeta.
  set (tr0 := tr ++ [EvCall F_notify to_email subject html]).
  assert (Hstep : forall tr1 es1,
             tr1 = tr0 ++ es1 -> forallb is_delivery es1 = true ->
             exists es,
               snd (if smtp_configured w
                    then send_email_via_smtp w to_email subject html tr1
                    else (Returns false, tr1 ++ [no_provider_warning])) =
                 tr ++ EvCall F_notify to_email subject html :: es /\
               forallb is_delivery es = true).
  { intros tr1 es1 -> Hes1. destruct (smtp_configured w).
    - destruct (smtp_emits w to_email subject html (tr0 ++ es1)) as (es & -> & Hes).
      exists (es1 ++ EvCall F_smtp to_email subject html :: es).
      split; [subst tr0; tidy_trace; reflexivity|].
      rewrite forallb_app, Hes1. cbn.
      apply (forallb_weaken is_session_or_log); [|exact Hes].
      intros [] ?; try discriminate; reflexivity.
    - exists (es1 ++ [no_provider_warning]).
      split; [subst tr0; cbn [snd]; tidy_trace; reflexivity|].
      rewrite forallb_app, Hes1. reflexivity. }
  destruct (rest_configured w).
  - destruct (sendgrid_emits w to_email subject html tr0) as (b & es0 & -> & Hes0).
    assert (Hes0' : forallb is_delivery (EvCall F_sendgrid to_email subject html :: es0) = true).
    { cbn. apply (forallb_weaken is_http_or_log); [|exact Hes0].
      intros [] ?; try discriminate; reflexivity. }
    destruct b.
    + exists (EvCall F_sendgrid to_email subject html :: es0).
      split; [subst tr0; cbn [snd]; tidy_trace; reflexivity | exact Hes0'].
    + apply (Hstep _ _ eq_refl Hes0').
  - apply (Hstep tr0 []); [symmetry; apply app_nil_r | reflexivity].
Qed.

Lemma notified_app (xs ys : list event) :
  notified (xs ++ ys) = notified xs ++ notified ys.
Proof. apply omap_app. Qed.

Lemma notified_delivery (es : list event) :
  forallb is_delivery es = true -> notified es = [].
Proof.
  intros H. apply (forallb_omap_nil _ _ _ H).
  intros [[]| | | | | | | |] ?; try discriminate; reflexivity.
Qed.

(** Run equation of the lead handler. *)
Lemma contact_lead_run (w : world) (payload : Contactlead) (tr : list event) :
  create_contact_lead w payload tr =
  let doc := model_dump payload in
  let stored := EvCreateDocument "contactlead" doc in
  match create_document w tr "contactlead" doc with
  | Raises e => (Returns (HTTPException 500 (exn_str e)), tr ++ [stored])
  | Returns lead_id =>
      match send_notification w (getenv_or w "EMAIL_TO" default_recipient)
              (lead_subject doc) (lead_html doc lead_id) (tr ++ [stored]) with
      | (Returns sent, tr') => (Returns (Ok (ContactReply "ok" lead_id sent)), tr')
      | (Raises e, tr') => (Returns (HTTPException 500 (exn_str e)), tr')
      end
  end.
Proof.
  unfold create_contact_lead. run_monad.
  destruct (create_document _ _ _ _) as [lead_id|e]; [|reflexivity].
  destruct (send_notification _ _ _ _ _) as [[sent|e] tr']; reflexivity.
Qed.

(** Run equation of the manual test endpoint. *)
Lemma email_test_run (w : world) (body : EmailTest) (tr : list event) :
  email_test w body tr =
  let to_email := opt_or (to body) (getenv_or w "EMAIL_TO" default_recipient) in
  match send_notification w to_email "Test: Email configuration"
          email_test_html tr with
  | (Returns sent, tr') => (Returns (Ok (EmailTestReply sent to_email)), tr')
  | (Raises e, tr') => (Returns (HTTPException 500 (exn_str e)), tr')
  end.
Proof.
  unfold email_test. run_monad.
  destruct (send_notification _ _ _ _ _) as [[sent|e] tr']; reflexivity.
Qed.

(** The dispatcher when nothing is configured. *)
Lemma notify_unconfigured (w : world) (to_email subject html : string)
    (tr : list event) :
  rest_configured w = false ->
  smtp_configured w = false ->
  send_notification w to_email subject html tr =
    (Returns false,
     tr ++ [EvCall F_notify to_email subject html; no_provider_warning]).
Proof.
  intros Hrest Hsmtp. rewrite notify_run. cbn zeta. rewrite Hrest, Hsmtp.
  tidy_trace. reflexivity.
Qed.


(** ** The REST sender *)

(** C5 — REST sender contract.  Without an API key the sender returns
    false at once and makes no network call.  With a key it submits one
    request; it returns true exactly when the response status is 200 or
    202; on any other status it logs the status and the first 200
    characters of the body and returns false; an exception of the
    transport is logged and turned into false.  In no case does an
    exception reach the caller.  The logged text is the prefix of the body
    that ends between two characters and holds 200 of them, or all of them
    when the body has fewer. *)
Theorem C5_sendgrid_contract (w : world) (to_email subject html : string)
    (tr : list event) :
  let entered := EvCall F_sendgrid to_email subject html in
  let req := sendgrid_request w to_email subject html in
  let run := send_email_via_sendgrid w to_email subject html tr in
  (rest_configured w = false ->
   run = (Returns false, tr ++ [entered]) /\ network_calls [entered] = []) /\
  (rest_configured w = true ->
   forall resp, requests_post w (tr ++ [entered]) req = Returns resp ->
     (fst run = Returns true <->
      status_code resp = 200 \/ status_code resp = 202) /\
     (~ (status_code resp = 200 \/ status_code resp = 202) ->
      exists logged rest,
        run = (Returns false,
               tr ++ [entered; EvHttpPost req;
                      EvLog WARNING "SendGrid email failed: %s %s"
                            [AInt (status_code resp); AStr logged]]) /\
        text resp = (logged ++ rest)%string /\
        at_boundary rest = true /\
        char_length logged = Nat.min 200 (char_length (text resp)))) /\
  (rest_configured w = true ->
   forall e, requests_post w (tr ++ [entered]) req = Raises e ->
     run = (Returns false,
            tr ++ [entered; EvHttpPost req;
                   EvLog ERROR "Error sending email via SendGrid: %s" [AExn e]])) /\
  (exists b tr', run = (Returns b, tr')).
Proof.
  intros entered req run. subst entered req run.
  rewrite sendgrid_run. cbn zeta.
  split; [|split; [|split]].
  - intros ->. split; reflexivity.
  - intros -> resp ->. unfold accepted.
    destruct (status_code resp =? 200) eqn:E200;
      [|destruct (status_code resp =? 202) eqn:E202]; cbn [orb fst].
    + apply Z.eqb_eq in E200. split; [tauto|]. intros H. tauto.
    + apply Z.eqb_eq in E202. split; [tauto|]. intros H. tauto.
    + apply Z.eqb_neq in E200, E202. split.
      * split; [discriminate|]. intros [H|H]; contradiction.
      * intros _.
        destruct (slice_to_split 200 (text resp)) as (rest & Hsplit & Hb).
        exists (slice_to 200 (text resp)), rest.
        split; [reflexivity|]. split; [exact Hsplit|]. split; [exact Hb|].
        apply slice_to_char_length.
  - intros -> e ->. reflexivity.
  - destruct (rest_configured w); [|eauto].
    destruct (requests_post _ _ _) as [resp|e]; [destruct (accepted resp)|]; eauto.
Qed.

(** The contract at work: a 500 answer whose body has 250 characters, 25
    of them two bytes long.  The first 200 are logged. *)
Lemma C5_sendgrid_contract_witness :
  exists logged rest,
    send_email_via_sendgrid w_rest_500_long "ops@x.com" "s" "<p>h</p>" [] =
      (Returns false,
       [EvCall F_sendgrid "ops@x.com" "s" "<p>h</p>";
        EvHttpPost (sendgrid_request w_rest_500_long "ops@x.com" "s" "<p>h</p>");
        EvLog WARNING "SendGrid email failed: %s %s" [AInt 500; AStr logged]]) /\
    repeat_str 25 "é123456789" = (logged ++ rest)%string /\
    at_boundary rest = true /\
    char_length logged = 200%nat.
Proof.
  destruct (C5_sendgrid_contract w_rest_500_long "ops@x.com" "s" "<p>h</p>" [])
    as (_ & Hstatus & _).
  destruct (Hstatus ltac:(reflexivity)
                    (HttpResponse 500 (repeat_str 25 "é123456789"))
                    ltac:(reflexivity)) as [_ Hother].
  apply Hother. cbn. intros [H|H]; discriminate H.
Defined.

(** What is logged there: twenty of the twenty-five groups. *)
Example long_body_logged :
  slice_to 200 (repeat_str 25 "é123456789") = repeat_str 20 "é123456789" /\
  String.length (repeat_str 20 "é123456789") = 220%nat.
Proof. split; reflexivity. Qed.

(** ** The dispatcher *)

(** C2 — short-circuit.  When the REST provider is configured and its
    send attempt succeeds, the dispatcher returns true with the trace the
    REST sender left: the SMTP sender is not entered and no SMTP
    operation takes place. *)
Theorem C2_rest_success_short_circuits (w : world)
    (to_email subject html : string) (tr tr1 : list event) :
  rest_configured w = true ->
  send_email_via_sendgrid w to_email subject html
    (tr ++ [EvCall F_notify to_email subject html]) = (Returns true, tr1) ->
  send_notification w to_email subject html tr = (Returns true, tr1) /\
  exists es, tr1 = tr ++ es /\ calls F_smtp es = 0%nat /\ smtp_activity es = [].
Proof.
  intros Hrest Hsend. split.
  - rewrite notify_run. cbn zeta. rewrite Hrest, Hsend. reflexivity.
  - destruct (sendgrid_emits w to_email subject html
                (tr ++ [EvCall F_notify to_email subject html]))
      as (b & es & Hrun & Hes).
    rewrite Hrun in Hsend. injection Hsend as _ <-.
    exists (EvCall F_notify to_email subject html
            :: EvCall F_sendgrid to_email subject html :: es).
    split; [tidy_trace; reflexivity|].
    assert (Hnone : List.filter is_smtp es = []).
    { apply (forallb_filter_nil _ _ _ Hes). intros [] ?; try discriminate; reflexivity. }
    assert (Hcalls : List.filter (is_call F_smtp) es = []).
    { apply (forallb_filter_nil _ _ _ Hes). intros [] ?; try discriminate; reflexivity. }
    unfold calls, smtp_activity. cbn. rewrite Hnone, Hcalls. split; reflexivity.
Qed.

Lemma C2_rest_success_short_circuits_witness :
  send_notification w_both "ops@x.com" "s" "h" [] =
    (Returns true,
     [EvCall F_notify "ops@x.com" "s" "h";
      EvCall F_sendgrid "ops@x.com" "s" "h";
      EvHttpPost (sendgrid_request w_both "ops@x.com" "s" "h");
      EvLog INFO "SendGrid email accepted for delivery" []]).
Proof.
  apply (C2_rest_success_short_circuits w_both "ops@x.com" "s" "h" []).
  - reflexivity.
  - reflexivity.
Defined.

(** C3 — fallback.  With the SMTP provider configured, if the REST
    provider is not configured, or is configured and its attempt returns
    false, the dispatcher hands over to the SMTP sender: its outcome is the
    SMTP sender's outcome, and the SMTP sender is entered exactly once. *)
Theorem C3_fallback_to_smtp (w : world) (to_email subject html : string)
    (tr tr1 : list event) :
  smtp_configured w = true ->
  (if rest_configured w
   then send_email_via_sendgrid w to_email subject html
          (tr ++ [EvCall F_notify to_email subject html]) = (Returns false, tr1)
   else tr1 = tr ++ [EvCall F_notify to_email subject html]) ->
  send_notification w to_email subject html tr =
    send_email_via_smtp w to_email subject html tr1 /\
  exists es,
    snd (send_notification w to_email subject html tr) = tr ++ es /\
    calls F_smtp es = 1%nat.
Proof.
  intros Hsmtp Hrest.
  assert (Hrun : send_notification w to_email subject html tr =
                 send_email_via_smtp w to_email subject html tr1).
  { rewrite notify_run. cbn zeta.
    destruct (rest_configured w); [rewrite Hrest | subst tr1];
      rewrite Hsmtp; reflexivity. }
  split; [exact Hrun|]. rewrite Hrun.
  destruct (smtp_emits w to_email subject html tr1) as (es & -> & Hes).
  assert (Hquiet : List.filter (is_call F_smtp) es = []).
  { apply (forallb_filter_nil _ _ _ Hes). intros [] ?; try discriminate; reflexivity. }
  destruct (rest_configured w).
  - destruct (sendgrid_emits w to_email subject html
                (tr ++ [EvCall F_notify to_email subject html]))
      as (b & es0 & Hsg & Hes0).
    rewrite Hsg in Hrest. injection Hrest as _ <-.
    assert (Hquiet0 : List.filter (is_call F_smtp) es0 = []).
    { apply (forallb_filter_nil _ _ _ Hes0). intros [] ?; try discriminate; reflexivity. }
    exists (EvCall F_notify to_email subject html
            :: EvCall F_sendgrid to_email subject html
            :: es0 ++ EvCall F_smtp to_email subject html :: es).
    split; [tidy_trace; reflexivity|].
    unfold calls. cbn. rewrite List.filter_app. cbn.
    rewrite Hquiet0, Hquiet. reflexivity.
  - subst tr1.
    exists (EvCall F_notify to_email subject html
            :: EvCall F_smtp to_email subject html :: es).
    split; [tidy_trace; reflexivity|].
    unfold calls. cbn. rewrite Hquiet. reflexivity.
Qed.

(** The REST endpoint answers 500 and SMTP takes over. *)
Lemma C3_fallback_to_smtp_witness :
  send_notification w_rest_500 "ops@x.com" "s" "h" [] =
    send_email_via_smtp w_rest_500 "ops@x.com" "s" "h"
      [EvCall F_notify "ops@x.com" "s" "h";
       EvCall F_sendgrid "ops@x.com" "s" "h";
       EvHttpPost (sendgrid_request w_rest_500 "ops@x.com" "s" "h");
       EvLog WARNING "SendGrid email failed: %s %s"
             [AInt 500; AStr "quota exceeded"]].
Proof.
  apply (C3_fallback_to_smtp w_rest_500 "ops@x.com" "s" "h" []).
  - reflexivity.
  - reflexivity.
Defined.

(** C4 — no provider.  When neither provider is configured the
    dispatcher returns false; all it does is log one warning, which names
    SENDGRID_API_KEY and the SMTP_* variables as the ones to set.  No
    network call is made and neither sender is entered. *)
Theorem C4_no_provider (w : world) (to_email subject html : string)
    (tr : list event) :
  rest_configured w = false ->
  smtp_configured w = false ->
  exists es,
    send_notification w to_email subject html tr = (Returns false, tr ++ es) /\
    es = [EvCall F_notify to_email subject html;
          EvLog WARNING
            "No email provider configured. Set SENDGRID_API_KEY or SMTP_* env vars to enable emails."
            []] /\
    network_calls es = [] /\
    calls F_sendgrid es = 0%nat /\ calls F_smtp es = 0%nat.
Proof.
  intros Hrest Hsmtp. eexists. split; [|repeat split].
  apply notify_unconfigured; assumption.
Qed.

Lemma C4_no_provider_witness :
  exists es,
    send_notification w_none "ops@x.com" "s" "h" [] = (Returns false, es) /\
    es = [EvCall F_notify "ops@x.com" "s" "h"; no_provider_warning] /\
    network_calls es = [] /\
    calls F_sendgrid es = 0%nat /\ calls F_smtp es = 0%nat.
Proof.
  apply (C4_no_provider w_none "ops@x.com" "s" "h" []); reflexivity.
Defined.

(** ** The SMTP sender *)

(** When the port parses, the guard on host, user and password decides:
    with one of them missing the sender returns false having done
    nothing. *)
Lemma smtp_guard_when_port_parses (w : world) (to_email subject html : string)
    (tr : list event) (port : Z) :
  parse_int (getenv_or w "SMTP_PORT" "587") = Some port ->
  smtp_configured w = false ->
  send_email_via_smtp w to_email subject html tr =
    (Returns false, tr ++ [EvCall F_smtp to_email subject html]).
Proof.
  intros Hport Hconf. unfold send_email_via_smtp, smtp_configured in *.
  rewrite (int_parses _ _ Hport). run_monad.
  destruct (truthy (getenv w "SMTP_HOST")), (truthy (getenv w "SMTP_USER")),
    (truthy (getenv w "SMTP_PASS")); try discriminate Hconf; reflexivity.
Qed.

(** When the port parses, the [try] block covers everything that can
    fail: the sender returns a boolean. *)
Lemma smtp_returns_when_port_parses (w : world) (to_email subject html : string)
    (tr : list event) (port : Z) :
  parse_int (getenv_or w "SMTP_PORT" "587") = Some port ->
  exists b tr', send_email_via_smtp w to_email subject html tr = (Returns b, tr').
Proof.
  intros Hport. unfold send_email_via_smtp.
  rewrite (int_parses _ _ Hport). run_monad.
  repeat (case_match; simplify_eq; run_monad; eauto).
Qed.

(** C6 — the exception that escapes.  [SMTP_PORT] is converted with
    [int] before the [try] block is entered; when it is not a number the
    [ValueError] leaves the sender instead of being turned into false. *)
Theorem C6_smtp_port_error_escapes (w : world) (to_email subject html : string)
    (tr : list event) :
  parse_int (getenv_or w "SMTP_PORT" "587") = None ->
  exists e,
    send_email_via_smtp w to_email subject html tr =
      (Raises e, tr ++ [EvCall F_smtp to_email subject html]) /\
    exn_class e = "ValueError".
Proof.
  intros Hport. destruct (int_fails _ Hport) as (e & He & Hclass).
  unfold send_email_via_smtp. rewrite He. run_monad.
  exists e. split; [reflexivity | exact Hclass].
Qed.

Lemma C6_smtp_port_error_escapes_witness :
  exists e,
    send_email_via_smtp w_bad_port "ops@x.com" "s" "h" [] =
      (Raises e, [EvCall F_smtp "ops@x.com" "s" "h"]) /\
    exn_class e = "ValueError".
Proof.
  apply (C6_smtp_port_error_escapes w_bad_port "ops@x.com" "s" "h" []).
  reflexivity.
Defined.

(** C7 — the guard comes too late.  With host, user and password all
    absent and [SMTP_PORT] set to "abc", the sender does not return false:
    the conversion of the port, which precedes the guard, raises. *)
Theorem C7_smtp_guard_preceded_by_port :
  smtp_configured w_only_bad_port = false /\
  send_email_via_smtp w_only_bad_port "ops@x.com" "s" "h" [] =
    (Raises (Exn "ValueError" "invalid literal for int() with base 10: 'abc'"),
     [EvCall F_smtp "ops@x.com" "s" "h"]).
Proof. split; reflexivity. Qed.

(** C8 — a session left open.  With SMTP configured, a connection that
    is established and a server that refuses the login, the sender logs the
    error and returns false; the session was opened and [quit] is never
    sent on it. *)
Theorem C8_session_left_open (w : world) (to_email subject html : string)
    (tr : list event) (port : Z) (e : exn) :
  smtp_configured w = true ->
  parse_int (getenv_or w "SMTP_PORT" "587") = Some port ->
  (forall h, smtp_connect w h (the (getenv w "SMTP_HOST")) port 15 = Returns tt) ->
  (forall h, smtp_starttls w h = Returns tt) ->
  (forall h, smtp_login w h (the (getenv w "SMTP_USER"))
                            (the (getenv w "SMTP_PASS")) = Raises e) ->
  exists es,
    send_email_via_smtp w to_email subject html tr = (Returns false, tr ++ es) /\
    In (EvSmtpConnect (the (getenv w "SMTP_HOST")) port 15) es /\
    ~ In EvSmtpQuit es.
Proof.
  intros Hconf Hport Hconnect Htls Hlogin.
  unfold send_email_via_smtp, smtp_configured in *.
  rewrite (int_parses _ _ Hport). run_monad.
  apply andb_true_iff in Hconf as [-> Hconf].
  apply andb_true_iff in Hconf as [-> ->]. cbn [negb orb].
  rewrite Hconnect.
  destruct (String.eqb _ _); run_monad; [rewrite Htls|]; rewrite Hlogin;
    tidy_trace; eexists; (split; [reflexivity|]); cbn;
    (split; [tauto|]);
    intros H; repeat (destruct H as [H|H]; [discriminate|]); exact H.
Qed.

Lemma C8_session_left_open_witness :
  exists es,
    send_email_via_smtp w_login_fails "ops@x.com" "s" "h" [] = (Returns false, es) /\
    In (EvSmtpConnect "mail.example.org" 587 15) es /\
    ~ In EvSmtpQuit es.
Proof.
  apply (C8_session_left_open w_login_fails "ops@x.com" "s" "h" [] 587
           (Exn "SMTPAuthenticationError" "(535, b'5.7.8 Bad credentials')"));
    reflexivity.
Defined.

(** On the path where nothing fails the session is closed. *)
Example smtp_success_quits :
  send_email_via_smtp w_smtp "ops@x.com" "s" "h" [] =
    (Returns true,
     [EvCall F_smtp "ops@x.com" "s" "h";
      EvSmtpConnect "mail.example.org" 587 15; EvSmtpStartTLS;
      EvSmtpLogin "mailer" "secret";
      EvSmtpSendmail "mailer" ["ops@x.com"] "MIME"; EvSmtpQuit;
      EvLog INFO "SMTP email sent successfully" []]).
Proof. reflexivity. Qed.

(** ** The handlers *)

(** The two outcomes the lead handler has when the dispatcher returns:
    a raising store gives a 500 and nothing but the attempt to store; a
    store that returns an id gives ok with the dispatcher's boolean. *)
Lemma lead_handler_outcomes (w : world) (payload : Contactlead)
    (tr : list event) :
  let doc := model_dump payload in
  let stored := EvCreateDocument "contactlead" doc in
  (forall e, create_document w tr "contactlead" doc = Raises e ->
     create_contact_lead w payload tr =
       (Returns (HTTPException 500 (exn_str e)), tr ++ [stored]) /\
     calls F_notify [stored] = 0%nat /\ network_calls [stored] = []) /\
  (forall lead_id sent tr',
     create_document w tr "contactlead" doc = Returns lead_id ->
     send_notification w (getenv_or w "EMAIL_TO" default_recipient)
       (lead_subject doc) (lead_html doc lead_id) (tr ++ [stored]) =
       (Returns sent, tr') ->
     create_contact_lead w payload tr =
       (Returns (Ok (ContactReply "ok" lead_id sent)), tr')).
Proof.
  intros doc stored. subst doc stored. rewrite contact_lead_run. cbn zeta.
  split.
  - intros e ->. repeat split.
  - intros lead_id sent tr' -> ->. reflexivity.
Qed.

(** C1 — failure isolation, broken by the port.  With SMTP configured,
    no API key and SMTP_PORT set to "abc", the store accepts the lead and
    returns its id, the dispatcher is invoked, the conversion of the port
    raises inside the SMTP sender, and the handler answers with an internal
    error (500): a failure of the notification fails the request although
    the lead is stored.  No network call was made. *)
Theorem C1_notification_failure_fails_request :
  exists tr,
    create_contact_lead w_bad_port lead_A [] =
      (Returns (HTTPException 500 "invalid literal for int() with base 10: 'abc'"),
       tr) /\
    create_document w_bad_port [] "contactlead" (model_dump lead_A) = Returns "L1" /\
    persisted tr = [model_dump lead_A] /\
    notified tr = ["arslan.rai2662@gmail.com"%string] /\
    calls F_smtp tr = 1%nat /\
    network_calls tr = [].
Proof. eexists. repeat split. Qed.







(** A message without line breaks is embedded as it is. *)
Lemma replace_char_absent (old : ascii) (new s : string) :
  ~ In old (list_ascii_of_string s) -> replace_char old new s = s.
Proof.
  induction s as [|c s IH]; cbn; [reflexivity|]. intros H.
  destruct (Ascii.eqb_spec c old) as [->|_]; [tauto|].
  f_equal. apply IH. tauto.
Qed.



(** C10 — the hard-coded default recipient.  With EMAIL_TO unset, the
    lead handler (once the lead is stored) and the test endpoint (when the
    body carries no recipient) ask the dispatcher, once, to notify
    "arslan.rai2662@gmail.com".  A non-empty [to] in the body of the test
    request is the recipient whatever the environment says. *)
Theorem C10_default_recipient (w : world) (tr : list event) :
  default_recipient = "arslan.rai2662@gmail.com" /\
  (getenv w "EMAIL_TO" = None ->
   (forall payload lead_id,
      create_document w tr "contactlead" (model_dump payload) = Returns lead_id ->
      notified (snd (create_contact_lead w payload tr)) =
        notified tr ++ ["arslan.rai2662@gmail.com"%string]) /\
   (forall body,
      truthy (to body) = false ->
      notified (snd (email_test w body tr)) =
        notified tr ++ ["arslan.rai2662@gmail.com"%string])) /\
  (forall body recipient,
     to body = Some recipient -> recipient <> EmptyString ->
     notified (snd (email_test w body tr)) = notified tr ++ [recipient]).
Proof.
  assert (Hnotify : forall to_email subject html tr0,
             notified (snd (send_notification w to_email subject html tr0)) =
               notified tr0 ++ [to_email]).
  { intros to_email subject html tr0.
    destruct (notify_emits w to_email subject html tr0) as (es & -> & Hes).
    rewrite notified_app.
    change (notified (EvCall F_notify to_email subject html :: es))
      with (to_email :: notified es).
    rewrite (notified_delivery _ Hes). reflexivity. }
  assert (Htest : forall body,
             notified (snd (email_test w body tr)) =
               notified tr ++
               [opt_or (to body) (getenv_or w "EMAIL_TO" default_recipient)]).
  { intros body. rewrite email_test_run. cbn zeta.
    rewrite <- Hnotify with (subject := "Test: Email configuration"%string)
                            (html := email_test_html).
    destruct (send_notification _ _ _ _ _) as [[sent|e] tr']; reflexivity. }
  split; [reflexivity|]. split.
  - intros Hunset. unfold getenv in Hunset. split.
    + intros payload lead_id Hid. rewrite contact_lead_run. cbn zeta. rewrite Hid.
      unfold getenv_or. rewrite Hunset. cbn [default].
      transitivity (notified (snd (send_notification w default_recipient
                      (lead_subject (model_dump payload))
                      (lead_html (model_dump payload) lead_id)
                      (tr ++ [EvCreateDocument "contactlead" (model_dump payload)])))).
      { destruct (send_notification _ _ _ _ _) as [[sent|e] tr']; reflexivity. }
      rewrite Hnotify, notified_app.
      change (notified [EvCreateDocument "contactlead" (model_dump payload)])
        with (@nil string).
      rewrite app_nil_r. reflexivity.
    + intros body Hto. rewrite Htest. unfold getenv_or. rewrite Hunset. cbn [default].
      destruct (to body) as [[|c s]|]; try discriminate Hto; reflexivity.
  - intros body recipient Hto Hne. rewrite Htest, Hto.
    destruct recipient; [congruence | reflexivity].
Qed.

(** Nothing configured: both handlers fall back on the literal address;
    an address in the request wins. *)
Lemma C10_default_recipient_witness :
  notified (snd (create_contact_lead w_none lead_A [])) =
    ["arslan.rai2662@gmail.com"%string] /\
  notified (snd (email_test w_none (mkEmailTest None) [])) =
    ["arslan.rai2662@gmail.com"%string] /\
  notified (snd (email_test w_none (mkEmailTest (Some "me@x.com"%string)) [])) =
    ["me@x.com"%string].
Proof.
  destruct (C10_default_recipient w_none []) as (_ & Hdefault & Hexplicit).
  destruct (Hdefault ltac:(reflexivity)) as [Hlead Htest].
  split; [|split].
  - apply (Hlead lead_A "L1"%string). reflexivity.
  - apply (Htest (mkEmailTest None)). reflexivity.
  - apply (Hexplicit (mkEmailTest (Some "me@x.com"%string)) "me@x.com"%string).
    + reflexivity.
    + discriminate.
Defined.

(** * Further properties of the code *)

Lemma count_app (p : event -> bool) (xs ys : list event) :
  count p (xs ++ ys) = (count p xs + count p ys)%nat.
Proof. unfold count. rewrite List.filter_app, length_app. reflexivity. Qed.

Lemma count_none (p q : event -> bool) (es : list event) :
  forallb p es = true ->
  (forall e, p e = true -> q e = false) ->
  count q es = 0%nat.
Proof.
  intros Hall Hpq. unfold count.
  rewrite (forallb_filter_nil p q es Hall Hpq). reflexivity.
Qed.

(** ** The REST sender *)

(** X1 — one request per call.  When the API key is set the REST sender
    makes exactly one HTTPS request, whatever comes back: it goes to the
    fixed SendGrid endpoint with a timeout of 10 and carries the key as a
    bearer token.  There is no second attempt after a failure. *)
Theorem X1_sendgrid_single_request (w : world)
    (to_email subject html : string) (tr : list event) :
  rest_configured w = true ->
  exists sent es req,
    send_email_via_sendgrid w to_email subject html tr =
      (Returns sent, tr ++ EvCall F_sendgrid to_email subject html :: es) /\
    network_calls es = [EvHttpPost req] /\
    req_url req = "https://api.sendgrid.com/v3/mail/send"%string /\
    req_timeout req = 10 /\
    req_headers req !! 0%nat =
      Some ("Authorization"%string,
            ("Bearer " ++ the (getenv w "SENDGRID_API_KEY"))%string).
Proof.
  intros Hrest. rewrite sendgrid_run. cbn zeta. rewrite Hrest.
  destruct (requests_post _ _ _) as [resp|e]; [destruct (accepted resp)|];
    eexists _, _, _; (split; [reflexivity|]); repeat split.
Qed.

Lemma X1_sendgrid_single_request_witness :
  exists sent es req,
    send_email_via_sendgrid w_rest_timeout "ops@x.com" "s" "h" [] =
      (Returns sent, [] ++ EvCall F_sendgrid "ops@x.com" "s" "h" :: es) /\
    network_calls es = [EvHttpPost req] /\
    req_url req = "https://api.sendgrid.com/v3/mail/send"%string /\
    req_timeout req = 10 /\
    req_headers req !! 0%nat =
      Some ("Authorization"%string, "Bearer SG.key"%string).
Proof.
  apply (X1_sendgrid_single_request w_rest_timeout "ops@x.com" "s" "h" []).
  reflexivity.
Defined.

(** ** The SMTP sender *)

(** The SMTP sender with its configuration read and its guard passed. *)
Lemma smtp_run (w : world) (to_email subject html : string) (tr : list event)
    (port : Z) :
  smtp_configured w = true ->
  parse_int (getenv_or w "SMTP_PORT" "587") = Some port ->
  send_email_via_smtp w to_email subject html tr =
  try_except
    (call (EvSmtpConnect (the (getenv w "SMTP_HOST")) port 15)
          (fun h => smtp_connect w h (the (getenv w "SMTP_HOST")) port 15);;
     (if smtp_use_tls w then call EvSmtpStartTLS (smtp_starttls w) else mret tt);;
     call (EvSmtpLogin (the (getenv w "SMTP_USER")) (the (getenv w "SMTP_PASS")))
          (fun h => smtp_login w h (the (getenv w "SMTP_USER"))
                               (the (getenv w "SMTP_PASS")));;
     body ← lift (mime_as_string w (smtp_message w to_email subject html));
     call (EvSmtpSendmail (smtp_from w) [to_email] body)
          (fun h => smtp_sendmail w h (smtp_from w) [to_email] body);;
     call EvSmtpQuit (smtp_quit w);;
     log INFO "SMTP email sent successfully" [];;
     mret true)
    (fun e => log_exception "Error sending email via SMTP: %s" e;; mret false)
    (tr ++ [EvCall F_smtp to_email subject html]).
Proof.
  intros Hconf Hport. unfold send_email_via_smtp, smtp_configured in *.
  rewrite (int_parses _ _ Hport).
  apply andb_true_iff in Hconf as [Hhost Hconf].
  apply andb_true_iff in Hconf as [Huser Hpass].
  unfold mbind at 1, M_bind at 1, emit at 1. cbn beta iota.
  unfold mbind at 1, M_bind at 1, lift at 1. cbn beta iota.
  rewrite Hhost, Huser, Hpass. cbn [negb orb]. reflexivity.
Qed.

(** A port that reads as [port] parses as [port]. *)
Lemma port_reads_parses (w : world) (port : Z) :
  port_reads w port ->
  parse_int (getenv_or w "SMTP_PORT" "587") = Some port.
Proof.
  unfold port_reads, getenv_or, getenv.
  destruct (environ w !! "SMTP_PORT") as [s|]; cbn [default].
  - intros [_ H]. exact H.
  - intros ->. reflexivity.
Qed.

(** What [perform] leaves behind when it stops: the steps before the one
    that raised all returned, and nothing after it was touched. *)
Lemma perform_stops (steps : list step) (tr tr' : list event) (e : exn) :
  perform steps tr = (Some e, tr') ->
  exists done ev answer rest h,
    steps = done ++ (ev, answer) :: rest /\
    perform done tr = (None, h) /\
    answer h = Raises e /\
    tr' = match ev with Some x => h ++ [x] | None => h end.
Proof.
  revert tr. induction steps as [|[ev answer] steps IH]; intros tr; cbn.
  - discriminate.
  - destruct (answer tr) as [[]|e0] eqn:Hanswer.
    + intros Hrun. destruct (IH _ Hrun) as (done & ev' & answer' & rest & h & -> & Hdone & Hraise & ->).
      exists ((ev, answer) :: done), ev', answer', rest, h.
      split; [reflexivity|]. split; [|split; [exact Hraise | reflexivity]].
      cbn. rewrite Hanswer. exact Hdone.
    + intros [= <- <-]. exists [], ev, answer, steps, tr.
      repeat split. exact Hanswer.
Qed.

Lemma perform_completes (steps : list step) (tr tr' : list event) :
  perform steps tr = (None, tr') ->
  tr' = tr ++ omap fst steps.
Proof.
  revert tr. induction steps as [|[ev answer] steps IH]; intros tr; cbn.
  - intros [= <-]. symmetry. apply app_nil_r.
  - destruct (answer tr) as [[]|e0]; [|discriminate].
    intros Hrun. rewrite (IH _ Hrun).
    destruct ev; cbn; tidy_trace; reflexivity.
Qed.

(** X2 — order of the SMTP operations.  Once its guard is passed, with
    SMTP_PORT unset or a plain number, the SMTP sender is the run of its
    steps in order: connect, STARTTLS (when enabled), login, rendering of
    the message, sendmail, quit.  It stops at the first step that raises,
    logs that exception and returns false; when no step raises it logs
    success and returns true. *)
Theorem X2_smtp_session_order (w : world) (to_email subject html : string)
    (tr : list event) (port : Z) :
  smtp_configured w = true ->
  port_reads w port ->
  send_email_via_smtp w to_email subject html tr =
    match perform (smtp_steps w port to_email subject html)
                  (tr ++ [EvCall F_smtp to_email subject html]) with
    | (None, tr') =>
        (Returns true, tr' ++ [EvLog INFO "SMTP email sent successfully" []])
    | (Some e, tr') =>
        (Returns false,
         tr' ++ [EvLog ERROR "Error sending email via SMTP: %s" [AExn e]])
    end.
Proof.
  intros Hconf Hport.
  rewrite (smtp_run _ _ _ _ _ _ Hconf (port_reads_parses _ _ Hport)).
  unfold smtp_steps. run_monad. cbn [perform app].
  destruct (smtp_connect _ _ _ _ _) as [[]|]; [|reflexivity].
  destruct (smtp_use_tls w); run_monad; cbn [perform app];
    [destruct (smtp_starttls _ _) as [[]|]; [|reflexivity]|];
    (destruct (smtp_login _ _ _ _) as [[]|]; [|reflexivity]);
    (destruct (mime_as_string _ _) as [body|]; [|reflexivity]);
    (destruct (smtp_sendmail _ _ _ _ _) as [[]|]; [|reflexivity]);
    destruct (smtp_quit _ _) as [[]|]; reflexivity.
Qed.

(** The server refuses the login: connect, STARTTLS and login were
    carried out, the rest was not. *)
Lemma X2_smtp_session_order_witness :
  send_email_via_smtp w_login_fails "ops@x.com" "s" "h" [] =
    (Returns false,
     [EvCall F_smtp "ops@x.com" "s" "h";
      EvSmtpConnect "mail.example.org" 587 15; EvSmtpStartTLS;
      EvSmtpLogin "mailer" "secret";
      EvLog ERROR "Error sending email via SMTP: %s"
            [AExn (Exn "SMTPAuthenticationError" "(535, b'5.7.8 Bad credentials')")]]).
Proof.
  rewrite (X2_smtp_session_order w_login_fails "ops@x.com" "s" "h" [] 587).
  - reflexivity.
  - reflexivity.
  - reflexivity.
Defined.

(** The port error, as a fact to build on. *)
Lemma smtp_raises_when_port_fails (w : world) (to_email subject html : string)
    (tr : list event) :
  parse_int (getenv_or w "SMTP_PORT" "587") = None ->
  exists e,
    send_email_via_smtp w to_email subject html tr =
      (Raises e, tr ++ [EvCall F_smtp to_email subject html]).
Proof.
  intros Hport. destruct (int_fails _ Hport) as (e & He & _).
  unfold send_email_via_smtp. rewrite He. run_monad. eexists. reflexivity.
Qed.

(** X3 — what a true result stands for.  The SMTP sender returns true
    only after a complete session: the port parsed, the guard passed, and
    the trace shows connect, STARTTLS when enabled, login, one sendmail to
    the single recipient, quit, and the success log, in that order. *)
Theorem X3_smtp_true_is_complete (w : world) (to_email subject html : string)
    (tr : list event) :
  fst (send_email_via_smtp w to_email subject html tr) = Returns true ->
  exists port body,
    smtp_configured w = true /\
    parse_int (getenv_or w "SMTP_PORT" "587") = Some port /\
    mime_as_string w (smtp_message w to_email subject html) = Returns body /\
    snd (send_email_via_smtp w to_email subject html tr) =
      tr ++ EvCall F_smtp to_email subject html
         :: smtp_script w port to_email body
         ++ [EvLog INFO "SMTP email sent successfully" []].
Proof.
  destruct (parse_int (getenv_or w "SMTP_PORT" "587")) as [port|] eqn:Hport.
  2:{ destruct (smtp_raises_when_port_fails w to_email subject html tr Hport)
        as (e & ->).
      discriminate. }
  destruct (smtp_configured w) eqn:Hconf.
  2:{ rewrite (smtp_guard_when_port_parses _ _ _ _ _ _ Hport Hconf). discriminate. }
  rewrite (smtp_run _ _ _ _ _ _ Hconf Hport).
  unfold smtp_script. run_monad.
  destruct (smtp_connect _ _ _ _ _); [|discriminate].
  destruct (smtp_use_tls w); run_monad;
    [destruct (smtp_starttls _ _); [|discriminate]|];
    (destruct (smtp_login _ _ _ _); [|discriminate]);
    (destruct (mime_as_string _ _) as [body|]; [|discriminate]);
    (destruct (smtp_sendmail _ _ _ _ _); [|discriminate]);
    (destruct (smtp_quit _ _); [|discriminate]);
    intros _; exists port, body; repeat split; tidy_trace; reflexivity.
Qed.

Lemma X3_smtp_true_is_complete_witness :
  exists port body,
    smtp_configured w_smtp = true /\
    parse_int (getenv_or w_smtp "SMTP_PORT" "587") = Some port /\
    mime_as_string w_smtp (smtp_message w_smtp "ops@x.com" "s" "h") = Returns body /\
    snd (send_email_via_smtp w_smtp "ops@x.com" "s" "h" []) =
      [] ++ EvCall F_smtp "ops@x.com" "s" "h"
         :: smtp_script w_smtp port "ops@x.com" body
         ++ [EvLog INFO "SMTP email sent successfully" []].
Proof.
  apply (X3_smtp_true_is_complete w_smtp "ops@x.com" "s" "h" []). reflexivity.
Defined.

(** Decide membership of an event in the events a branch emitted. *)
Ltac in_or_out :=
  cbn [In];
  first [ solve [intuition (discriminate || congruence)]
        | split; [intros _; reflexivity | intros _; tauto]
        | split; [intros H; exfalso;
                  repeat (destruct H as [H|H]; [discriminate H|]); exact H
                 | discriminate] ].

Ltac starttls_branch :=
  tidy_trace; eexists; (split; [reflexivity|]); in_or_out.

(** X4 — the STARTTLS switch.  With SMTP_PORT unset or a plain number,
    on a connection that was established, the upgrade to TLS is requested
    exactly when SMTP_STARTTLS, lower-cased, is the word true (the default
    when unset); any other value, such as yes or 1, sends the login
    without it. *)
Theorem X4_smtp_starttls_switch (w : world) (to_email subject html : string)
    (tr : list event) (port : Z) :
  smtp_configured w = true ->
  port_reads w port ->
  smtp_connect w (tr ++ [EvCall F_smtp to_email subject html])
               (the (getenv w "SMTP_HOST")) port 15 = Returns tt ->
  exists es,
    snd (send_email_via_smtp w to_email subject html tr) =
      tr ++ EvCall F_smtp to_email subject html :: es /\
    (In EvSmtpStartTLS es <->
     String.eqb (lower (getenv_or w "SMTP_STARTTLS" "true")) "true" = true).
Proof.
  intros Hconf Hport Hconnect.
  rewrite (smtp_run _ _ _ _ _ _ Hconf (port_reads_parses _ _ Hport)).
  run_monad. rewrite Hconnect. unfold smtp_use_tls.
  destruct (String.eqb _ _); run_monad.
  - destruct (smtp_starttls _ _); [|starttls_branch].
    destruct (smtp_login _ _ _ _); [|starttls_branch].
    destruct (mime_as_string _ _); [|starttls_branch].
    destruct (smtp_sendmail _ _ _ _ _); [|starttls_branch].
    destruct (smtp_quit _ _); starttls_branch.
  - destruct (smtp_login _ _ _ _); [|starttls_branch].
    destruct (mime_as_string _ _); [|starttls_branch].
    destruct (smtp_sendmail _ _ _ _ _); [|starttls_branch].
    destruct (smtp_quit _ _); starttls_branch.
Qed.

Lemma X4_smtp_starttls_switch_witness :
  exists es,
    snd (send_email_via_smtp w_smtp_2525_no_tls "ops@x.com" "s" "h" []) =
      [] ++ EvCall F_smtp "ops@x.com" "s" "h" :: es /\
    (In EvSmtpStartTLS es <->
     String.eqb (lower (getenv_or w_smtp_2525_no_tls "SMTP_STARTTLS" "true")) "true" = true).
Proof.
  apply (X4_smtp_starttls_switch w_smtp_2525_no_tls "ops@x.com" "s" "h" [] 2525).
  - reflexivity.
  - split; reflexivity.
  - reflexivity.
Defined.

(** X5 — a refused connection ends the attempt.  With SMTP_PORT unset
    or a plain number, when [smtplib.SMTP] raises, the sender logs the
    error and returns false; neither STARTTLS nor the login with the
    password is attempted. *)
Theorem X5_smtp_connect_failure (w : world) (to_email subject html : string)
    (tr : list event) (port : Z) (e : exn) :
  smtp_configured w = true ->
  port_reads w port ->
  smtp_connect w (tr ++ [EvCall F_smtp to_email subject html])
               (the (getenv w "SMTP_HOST")) port 15 = Raises e ->
  send_email_via_smtp w to_email subject html tr =
    (Returns false,
     tr ++ [EvCall F_smtp to_email subject html;
            EvSmtpConnect (the (getenv w "SMTP_HOST")) port 15;
            EvLog ERROR "Error sending email via SMTP: %s" [AExn e]]).
Proof.
  intros Hconf Hport Hconnect.
  rewrite (smtp_run _ _ _ _ _ _ Hconf (port_reads_parses _ _ Hport)).
  run_monad. rewrite Hconnect. tidy_trace. reflexivity.
Qed.

Ltac defaults_branch Hfrom :=
  tidy_trace; eexists; (split; [reflexivity|]);
  intros Hnone from_addr rcpts msg Hin; cbn [In] in Hin;
  repeat match type of Hin with
         | _ \/ _ => destruct Hin as [Hin|Hin]
         end;
  first [ discriminate Hin
        | contradiction
        | injection Hin as <- <- _; split; [apply Hfrom, Hnone | reflexivity] ].

Lemma X5_smtp_connect_failure_witness :
  send_email_via_smtp w_connect_refused "ops@x.com" "s" "h" [] =
    (Returns false,
     [] ++ [EvCall F_smtp "ops@x.com" "s" "h";
            EvSmtpConnect (the (getenv w_connect_refused "SMTP_HOST")) 587 15;
            EvLog ERROR "Error sending email via SMTP: %s"
                  [AExn (Exn "ConnectionRefusedError" "[Errno 111] Connection refused")]]).
Proof.
  apply (X5_smtp_connect_failure w_connect_refused "ops@x.com" "s" "h" [] 587);
    reflexivity.
Defined.

(** X6 — defaults of the SMTP sender.  With SMTP_PORT unset the session
    is opened on port 587 with a timeout of 15.  With EMAIL_FROM unset the
    sender address is the SMTP user: the literal fallback address is never
    used for a message that is sent, since the guard requires a user. *)
Theorem X6_smtp_defaults (w : world) (to_email subject html : string)
    (tr : list event) :
  smtp_configured w = true ->
  getenv w "SMTP_PORT" = None ->
  exists es,
    snd (send_email_via_smtp w to_email subject html tr) =
      tr ++ EvCall F_smtp to_email subject html
         :: EvSmtpConnect (the (getenv w "SMTP_HOST")) 587 15 :: es /\
    (getenv w "EMAIL_FROM" = None ->
     forall from_addr rcpts msg,
       In (EvSmtpSendmail from_addr rcpts msg) es ->
       from_addr = the (getenv w "SMTP_USER") /\ rcpts = [to_email]).
Proof.
  intros Hconf Hunset.
  assert (Hport : parse_int (getenv_or w "SMTP_PORT" "587") = Some 587).
  { unfold getenv_or. unfold getenv in Hunset. rewrite Hunset. reflexivity. }
  assert (Hfrom : getenv w "EMAIL_FROM" = None ->
                  smtp_from w = the (getenv w "SMTP_USER")).
  { intros Hnone. unfold smtp_from, getenv_or. unfold getenv in Hnone.
    rewrite Hnone. cbn [default]. unfold smtp_configured in Hconf.
    apply andb_true_iff in Hconf as [_ Hconf].
    apply andb_true_iff in Hconf as [Huser _].
    destruct (getenv w "SMTP_USER") as [[|c u]|]; try discriminate Huser.
    reflexivity. }
  rewrite (smtp_run _ _ _ _ _ _ Hconf Hport). run_monad.
  destruct (smtp_connect _ _ _ _ _); [|defaults_branch Hfrom].
  destruct (smtp_use_tls w); run_monad;
    [destruct (smtp_starttls _ _); [|defaults_branch Hfrom]|];
    (destruct (smtp_login _ _ _ _); [|defaults_branch Hfrom]);
    (destruct (mime_as_string _ _); [|defaults_branch Hfrom]);
    (destruct (smtp_sendmail _ _ _ _ _); [|defaults_branch Hfrom]);
    destruct (smtp_quit _ _); defaults_branch Hfrom.
Qed.

Lemma X6_smtp_defaults_witness :
  exists es,
    snd (send_email_via_smtp w_smtp "ops@x.com" "s" "h" []) =
      [] ++ EvCall F_smtp "ops@x.com" "s" "h"
         :: EvSmtpConnect (the (getenv w_smtp "SMTP_HOST")) 587 15 :: es /\
    (getenv w_smtp "EMAIL_FROM" = None ->
     forall from_addr rcpts msg,
       In (EvSmtpSendmail from_addr rcpts msg) es ->
       from_addr = the (getenv w_smtp "SMTP_USER") /\ rcpts = ["ops@x.com"%string]).
Proof.
  apply (X6_smtp_defaults w_smtp "ops@x.com" "s" "h" []); reflexivity.
Defined.

(** ** The dispatcher *)

Lemma sendgrid_emits_bounded (w : world) (to_email subject html : string)
    (tr : list event) :
  exists sent es,
    send_email_via_sendgrid w to_email subject html tr =
      (Returns sent, tr ++ EvCall F_sendgrid to_email subject html :: es) /\
    forallb is_http_or_log es = true /\
    (count is_post es <= 1)%nat /\
    (sent = true ->
     In (EvLog INFO "SendGrid email accepted for delivery" []) es).
Proof.
  rewrite sendgrid_run. cbn zeta.
  destruct (rest_configured w).
  - destruct (requests_post _ _ _) as [resp|e]; [destruct (accepted resp)|];
      eexists _, _; (split; [reflexivity|]);
      (split; [reflexivity|]); (split; [cbn; lia|]);
      first [discriminate | intros _; cbn; tauto].
  - exists false, []. repeat split; [cbn; lia | discriminate].
Qed.

Lemma smtp_emits_bounded (w : world) (to_email subject html : string)
    (tr : list event) :
  exists es,
    snd (send_email_via_smtp w to_email subject html tr) =
      tr ++ EvCall F_smtp to_email subject html :: es /\
    forallb is_session_or_log es = true /\
    (count is_connect es <= 1)%nat /\
    (fst (send_email_via_smtp w to_email subject html tr) = Returns true ->
     In (EvLog INFO "SMTP email sent successfully" []) es).
Proof.
  unfold send_email_via_smtp. run_monad.
  repeat (case_match; simplify_eq; run_monad;
          try (tidy_trace; cbn [fst snd]; eexists; (split; [reflexivity|]);
               (split; [reflexivity|]); (split; [cbn; lia|]);
               first [discriminate | intros _; cbn; tauto])).
Qed.

(** The dispatcher returns a boolean whenever the port parses. *)
Lemma notify_returns_when_port_parses (w : world)
    (to_email subject html : string) (tr : list event) (port : Z) :
  parse_int (getenv_or w "SMTP_PORT" "587") = Some port ->
  exists sent tr',
    send_notification w to_email subject html tr = (Returns sent, tr').
Proof.
  intros Hport. rewrite notify_run. cbn zeta.
  assert (Hstep : forall tr1,
             exists sent tr',
               (if smtp_configured w
                then send_email_via_smtp w to_email subject html tr1
                else (Returns false, tr1 ++ [no_provider_warning])) =
               (Returns sent, tr')).
  { intros tr1. destruct (smtp_configured w); [|eauto].
    apply (smtp_returns_when_port_parses _ _ _ _ _ _ Hport). }
  destruct (rest_configured w); [|apply Hstep].
  destruct (sendgrid_emits w to_email subject html
              (tr ++ [EvCall F_notify to_email subject html]))
    as ([|] & es & -> & _); [eauto | apply Hstep].
Qed.

(** X7 — only the REST provider configured.  The dispatcher enters the
    REST sender once and returns its result; the SMTP sender is not
    entered.  When the REST attempt fails the dispatcher still logs the
    warning that no provider is configured. *)
Theorem X7_dispatch_rest_only (w : world) (to_email subject html : string)
    (tr : list event) :
  rest_configured w = true ->
  smtp_configured w = false ->
  exists sent es,
    send_email_via_sendgrid w to_email subject html
      (tr ++ [EvCall F_notify to_email subject html]) =
      (Returns sent,
       tr ++ EvCall F_notify to_email subject html
          :: EvCall F_sendgrid to_email subject html :: es) /\
    send_notification w to_email subject html tr =
      (Returns sent,
       tr ++ EvCall F_notify to_email subject html
          :: EvCall F_sendgrid to_email subject html
          :: es ++ (if sent then [] else [no_provider_warning])) /\
    calls F_sendgrid es = 0%nat /\ calls F_smtp es = 0%nat.
Proof.
  intros Hrest Hsmtp. rewrite notify_run. cbn zeta. rewrite Hrest, Hsmtp.
  destruct (sendgrid_emits w to_email subject html
              (tr ++ [EvCall F_notify to_email subject html]))
    as (sent & es & Hrun & Hes).
  rewrite Hrun. exists sent, es.
  split; [tidy_trace; reflexivity|].
  split; [destruct sent; tidy_trace; rewrite ?app_nil_r; reflexivity|].
  split; apply (count_none is_http_or_log); try exact Hes;
    intros [] ?; try discriminate; reflexivity.
Qed.

Lemma X7_dispatch_rest_only_witness :
  exists sent es,
    send_email_via_sendgrid w_rest_only_500 "ops@x.com" "s" "h"
      ([] ++ [EvCall F_notify "ops@x.com" "s" "h"]) =
      (Returns sent,
       [] ++ EvCall F_notify "ops@x.com" "s" "h"
          :: EvCall F_sendgrid "ops@x.com" "s" "h" :: es) /\
    send_notification w_rest_only_500 "ops@x.com" "s" "h" [] =
      (Returns sent,
       [] ++ EvCall F_notify "ops@x.com" "s" "h"
          :: EvCall F_sendgrid "ops@x.com" "s" "h"
          :: es ++ (if sent then [] else [no_provider_warning])) /\
    calls F_sendgrid es = 0%nat /\ calls F_smtp es = 0%nat.
Proof.
  apply (X7_dispatch_rest_only w_rest_only_500 "ops@x.com" "s" "h" []);
    reflexivity.
Defined.

(** The second half of the dispatcher: the SMTP sender or the warning,
    after a prefix of known events. *)
Ltac then_smtp w to_email subject html :=
  destruct (smtp_configured w);
  [ match goal with
    | |- context [send_email_via_smtp w to_email subject html ?tr1] =>
        destruct (smtp_emits_bounded w to_email subject html tr1)
          as (? & -> & ? & ? & _)
    end;
    eexists; (split; [tidy_trace; reflexivity|]);
    unfold calls, count in *; cbn;
    match goal with
    | Hes : forallb is_session_or_log ?es = true |- _ =>
        rewrite !(forallb_filter_nil is_session_or_log _ es Hes)
          by (intros [] ?; try discriminate; reflexivity)
    end;
    cbn; repeat split; lia
  | eexists; (split; [cbn [snd]; tidy_trace; reflexivity|]);
    cbn; repeat split; lia ].

(** X8 — at most two attempts.  Whatever the configuration and whatever
    the providers answer, one call of the dispatcher enters each sender at
    most once, sends at most one HTTPS request and opens at most one SMTP
    connection: nothing is retried. *)
Theorem X8_dispatch_bounded (w : world) (to_email subject html : string)
    (tr : list event) :
  exists es,
    snd (send_notification w to_email subject html tr) = tr ++ es /\
    calls F_notify es = 1%nat /\
    (calls F_sendgrid es <= 1)%nat /\
    (calls F_smtp es <= 1)%nat /\
    (count is_post es <= 1)%nat /\
    (count is_connect es <= 1)%nat.
Proof.
  rewrite notify_run. cbn zeta.
  destruct (rest_configured w) eqn:Hrest.
  - rewrite sendgrid_run. cbn zeta. rewrite Hrest.
    destruct (requests_post _ _ _) as [resp|e]; [destruct (accepted resp)|].
    + eexists. split; [cbn [snd]; tidy_trace; reflexivity|].
      cbn. repeat split; lia.
    + then_smtp w to_email subject html.
    + then_smtp w to_email subject html.
  - then_smtp w to_email subject html.
Qed.

(** X9 — a true result was earned.  The dispatcher returns true only
    when one of the two senders logged that its provider took the message:
    the REST endpoint answered 200 or 202, or an SMTP session ran to its
    end. *)
Theorem X9_dispatch_true_is_accepted (w : world)
    (to_email subject html : string) (tr : list event) :
  fst (send_notification w to_email subject html tr) = Returns true ->
  exists es,
    snd (send_notification w to_email subject html tr) = tr ++ es /\
    (In (EvLog INFO "SendGrid email accepted for delivery" []) es \/
     In (EvLog INFO "SMTP email sent successfully" []) es).
Proof.
  rewrite notify_run. cbn zeta.
  assert (Hstep : forall pre,
             fst (if smtp_configured w
                  then send_email_via_smtp w to_email subject html (tr ++ pre)
                  else (Returns false, (tr ++ pre) ++ [no_provider_warning])) =
               Returns true ->
             exists es,
               snd (if smtp_configured w
                    then send_email_via_smtp w to_email subject html (tr ++ pre)
                    else (Returns false, (tr ++ pre) ++ [no_provider_warning])) =
                 tr ++ es /\
               (In (EvLog INFO "SendGrid email accepted for delivery" []) es \/
                In (EvLog INFO "SMTP email sent successfully" []) es)).
  { intros pre. destruct (smtp_configured w); [|discriminate].
    destruct (smtp_emits_bounded w to_email subject html (tr ++ pre))
      as (es & -> & _ & _ & Hlog).
    intros Htrue. exists (pre ++ EvCall F_smtp to_email subject html :: es).
    split; [tidy_trace; reflexivity|]. right.
    apply in_or_app. right. right. exact (Hlog Htrue). }
  destruct (rest_configured w); [|apply Hstep].
  destruct (sendgrid_emits_bounded w to_email subject html
              (tr ++ [EvCall F_notify to_email subject html]))
    as (sent & es1 & -> & _ & _ & Hlog).
  destruct sent.
  - intros _.
    exists (EvCall F_notify to_email subject html
            :: EvCall F_sendgrid to_email subject html :: es1).
    split; [cbn [snd]; tidy_trace; reflexivity|].
    left. right. right. exact (Hlog eq_refl).
  - replace ((tr ++ [EvCall F_notify to_email subject html]) ++
             EvCall F_sendgrid to_email subject html :: es1)
      with (tr ++ (EvCall F_notify to_email subject html
                   :: EvCall F_sendgrid to_email subject html :: es1))
      by (tidy_trace; reflexivity).
    apply Hstep.
Qed.

Lemma X9_dispatch_true_is_accepted_witness :
  exists es,
    snd (send_notification w_rest_500 "ops@x.com" "s" "h" []) = [] ++ es /\
    (In (EvLog INFO "SendGrid email accepted for delivery" []) es \/
     In (EvLog INFO "SMTP email sent successfully" []) es).
Proof.
  apply (X9_dispatch_true_is_accepted w_rest_500 "ops@x.com" "s" "h" []).
  reflexivity.
Defined.

(** ** The handlers, continued *)

Lemma persisted_app (xs ys : list event) :
  persisted (xs ++ ys) = persisted xs ++ persisted ys.
Proof. apply omap_app. Qed.

Lemma persisted_delivery (es : list event) :
  forallb is_delivery es = true -> persisted es = [].
Proof.
  intros H. apply (forallb_omap_nil _ _ _ H).
  intros [] ?; try discriminate; reflexivity.
Qed.

(** The dispatcher writes nothing to the document store. *)
Lemma notify_persists_nothing (w : world) (to_email subject html : string)
    (tr : list event) :
  persisted (snd (send_notification w to_email subject html tr)) = persisted tr.
Proof.
  destruct (notify_emits w to_email subject html tr) as (es & -> & Hes).
  rewrite persisted_app.
  change (persisted (EvCall F_notify to_email subject html :: es))
    with (persisted es).
  rewrite (persisted_delivery _ Hes). apply app_nil_r.
Qed.

(** X10 — one write, and first.  Every run of the lead handler starts by
    handing the dumped lead to the store, in the collection contactlead,
    and never writes a second time; when the store raises, nothing at all
    follows. *)
Theorem X10_lead_stored_once_first (w : world) (payload : Contactlead)
    (tr : list event) :
  exists es,
    snd (create_contact_lead w payload tr) =
      tr ++ EvCreateDocument "contactlead" (model_dump payload) :: es /\
    persisted es = [] /\
    (forall e,
       create_document w tr "contactlead" (model_dump payload) = Raises e ->
       es = []).
Proof.
  rewrite contact_lead_run. cbn zeta.
  destruct (create_document _ _ _ _) as [lead_id|e].
  - set (doc := model_dump payload).
    destruct (notify_emits w (getenv_or w "EMAIL_TO" default_recipient)
                (lead_subject doc) (lead_html doc lead_id)
                (tr ++ [EvCreateDocument "contactlead" doc]))
      as (es & Hes & Hdel).
    exists (EvCall F_notify (getenv_or w "EMAIL_TO" default_recipient)
                   (lead_subject doc) (lead_html doc lead_id) :: es).
    split; [|split; [|discriminate]].
    + transitivity (snd (send_notification w
                           (getenv_or w "EMAIL_TO" default_recipient)
                           (lead_subject doc) (lead_html doc lead_id)
                           (tr ++ [EvCreateDocument "contactlead" doc]))).
      { destruct (send_notification _ _ _ _ _) as [[sent|e] tr']; reflexivity. }
      rewrite Hes. tidy_trace. reflexivity.
    + change (persisted (EvCall F_notify (getenv_or w "EMAIL_TO" default_recipient)
                           (lead_subject doc) (lead_html doc lead_id) :: es))
        with (persisted es).
      apply persisted_delivery, Hdel.
  - exists []. repeat split.
Qed.

(** X11 — notification failures stay out of the answer.  When the store
    returns an id and SMTP_PORT is unset or a plain number (one to 640 of
    the digits 0 to 9), the lead handler answers ok with that id, whatever
    the providers do. *)
Theorem X11_lead_ok_when_port_parses (w : world) (payload : Contactlead)
    (tr : list event) (lead_id : string) (port : Z) :
  port_reads w port ->
  create_document w tr "contactlead" (model_dump payload) = Returns lead_id ->
  exists sent tr',
    create_contact_lead w payload tr =
      (Returns (Ok (ContactReply "ok" lead_id sent)), tr').
Proof.
  intros Hport Hid. rewrite contact_lead_run. cbn zeta. rewrite Hid.
  destruct (notify_returns_when_port_parses w
              (getenv_or w "EMAIL_TO" default_recipient)
              (lead_subject (model_dump payload))
              (lead_html (model_dump payload) lead_id)
              (tr ++ [EvCreateDocument "contactlead" (model_dump payload)])
              port (port_reads_parses _ _ Hport)) as (sent & tr' & ->).
  eauto.
Qed.

Lemma X11_lead_ok_when_port_parses_witness :
  exists sent tr',
    create_contact_lead w_smtp_2525 lead_A [] =
      (Returns (Ok (ContactReply "ok" "L1" sent)), tr').
Proof.
  apply (X11_lead_ok_when_port_parses w_smtp_2525 lead_A [] "L1" 2525).
  - split; reflexivity.
  - reflexivity.
Defined.

Lemma letter_is_printable (c : ascii) :
  is_ascii_letter c = true ->
  repr_byte "'"%char c = String c EmptyString /\
  Ascii.eqb "'"%char c = false /\
  Ascii.eqb "034"%char c = false /\
  forall rest, scan_int (String c rest) = Invalid.
Proof.
  destruct c as [[] [] [] [] [] [] [] []]; intros H; vm_compute in H;
    try discriminate H; repeat split; intros rest; vm_compute; reflexivity.
Qed.

(** A literal made of letters is refused by [int], and the message shows
    it in full between single quotes. *)
Lemma int_refuses_letters (s : string) :
  plain_letters s = true ->
  int s = Raises (Exn "ValueError"
                      ("invalid literal for int() with base 10: '" ++ s ++ "'")%string).
Proof.
  unfold plain_letters. rewrite !andb_true_iff. intros (Hne & Hall & Hlen).
  apply Nat.leb_le in Hlen.
  assert (Hscan : scan_int s = Invalid).
  { destruct s as [|c s]; [discriminate Hne|]. cbn in Hall.
    apply andb_true_iff in Hall as [Hc _].
    apply (letter_is_printable c Hc). }
  assert (Hquote : forall t, all_chars is_ascii_letter t = true ->
                     str_contains "'"%char t = false /\
                     str_contains "034"%char t = false /\
                     repr_body "'"%char t = t).
  { induction t as [|c t IH]; [repeat split|]. cbn [all_chars].
    rewrite andb_true_iff. intros [Hc Ht].
    destruct (letter_is_printable c Hc) as (Hbyte & Hq1 & Hq2 & _).
    destruct (IH Ht) as (H1 & H2 & H3).
    cbn [str_contains repr_body].
    rewrite Hq1, Hq2, H1, H2, Hbyte, H3. repeat split. }
  destruct (Hquote s Hall) as (H1 & H2 & H3).
  unfold int. rewrite Hscan. unfold repr. rewrite H1. cbn [andb]. rewrite H3.
  rewrite slice_to_all; [reflexivity|].
  etransitivity; [apply char_length_le|].
  change ("'" ++ s ++ "'")%string with (String "'"%char (s ++ "'")%string).
  cbn [String.length]. rewrite string_length_app. cbn [String.length]. lia.
Qed.

(** X12 — stored, yet answered with an error.  With SMTP configured, the
    REST provider not configured and an SMTP_PORT made of letters only,
    the lead handler stores the lead and then answers 500 with the message
    of the failed conversion, which quotes the setting; no connection is
    attempted. *)
Theorem X12_lead_stored_then_500 (w : world) (payload : Contactlead)
    (tr : list event) (lead_id port_text : string) :
  rest_configured w = false ->
  smtp_configured w = true ->
  getenv w "SMTP_PORT" = Some port_text ->
  plain_letters port_text = true ->
  create_document w tr "contactlead" (model_dump payload) = Returns lead_id ->
  exists es,
    create_contact_lead w payload tr =
      (Returns (HTTPException 500
                  ("invalid literal for int() with base 10: '"
                   ++ port_text ++ "'")%string),
       tr ++ es) /\
    persisted es = [model_dump payload] /\
    network_calls es = [].
Proof.
  intros Hrest Hsmtp Hset Hletters Hid. rewrite contact_lead_run. cbn zeta.
  rewrite Hid. rewrite notify_run. cbn zeta. rewrite Hrest, Hsmtp.
  assert (Hport : getenv_or w "SMTP_PORT" "587" = port_text).
  { unfold getenv_or. unfold getenv in Hset. rewrite Hset. reflexivity. }
  unfold send_email_via_smtp. rewrite Hport.
  rewrite (int_refuses_letters _ Hletters). run_monad.
  eexists. split; [tidy_trace; reflexivity|]. split; reflexivity.
Qed.

Lemma X12_lead_stored_then_500_witness :
  exists es,
    create_contact_lead w_bad_port lead_A [] =
      (Returns (HTTPException 500
                  ("invalid literal for int() with base 10: '"
                   ++ "abc" ++ "'")%string),
       [] ++ es) /\
    persisted es = [model_dump lead_A] /\
    network_calls es = [].
Proof.
  apply (X12_lead_stored_then_500 w_bad_port lead_A [] "L1" "abc"); reflexivity.
Defined.

(** X13 — the test endpoint.  It never writes to the document store.
    When SMTP_PORT is unset or a plain number (one to 640 of the digits 0
    to 9) it answers with the dispatcher's boolean and echoes the recipient
    it resolved: the body's [to] when non-empty, else EMAIL_TO when set,
    else the literal default. *)
Theorem X13_email_test_reply (w : world) (body : EmailTest) (tr : list event)
    (port : Z) :
  port_reads w port ->
  persisted (snd (email_test w body tr)) = persisted tr /\
  exists sent tr',
    send_notification w
      (opt_or (to body) (getenv_or w "EMAIL_TO" default_recipient))
      "Test: Email configuration" email_test_html tr = (Returns sent, tr') /\
    email_test w body tr =
      (Returns (Ok (EmailTestReply sent
                      (opt_or (to body)
                              (getenv_or w "EMAIL_TO" default_recipient)))),
       tr').
Proof.
  intros Hport. rewrite email_test_run. cbn zeta.
  pose proof (notify_persists_nothing w
                (opt_or (to body) (getenv_or w "EMAIL_TO" default_recipient))
                "Test: Email configuration" email_test_html tr) as Hstore.
  destruct (notify_returns_when_port_parses w
              (opt_or (to body) (getenv_or w "EMAIL_TO" default_recipient))
              "Test: Email configuration" email_test_html tr port
              (port_reads_parses _ _ Hport))
    as (sent & tr' & Hrun).
  rewrite Hrun in *. split; [exact Hstore | eauto].
Qed.

Lemma X13_email_test_reply_witness :
  persisted (snd (email_test w_both (mkEmailTest (Some "me@x.com"%string)) [])) =
    persisted [] /\
  exists sent tr',
    send_notification w_both
      (opt_or (Some "me@x.com"%string) (getenv_or w_both "EMAIL_TO" default_recipient))
      "Test: Email configuration" email_test_html [] = (Returns sent, tr') /\
    email_test w_both (mkEmailTest (Some "me@x.com"%string)) [] =
      (Returns (Ok (EmailTestReply sent
                      (opt_or (Some "me@x.com"%string)
                              (getenv_or w_both "EMAIL_TO" default_recipient)))),
       tr').
Proof.
  apply (X13_email_test_reply w_both (mkEmailTest (Some "me@x.com"%string)) [] 587).
  reflexivity.
Defined.

(** X14 — EMAIL_TO, when set, is taken as it is.  A set EMAIL_TO is the
    recipient for the lead handler and for a test request without a
    recipient of its own, even when it is the empty string: the literal
    default applies only to an unset variable. *)
Theorem X14_email_to_taken_verbatim (w : world) (tr : list event)
    (recipient : string) :
  getenv w "EMAIL_TO" = Some recipient ->
  (forall payload lead_id,
     create_document w tr "contactlead" (model_dump payload) = Returns lead_id ->
     notified (snd (create_contact_lead w payload tr)) =
       notified tr ++ [recipient]) /\
  (forall body,
     truthy (to body) = false ->
     notified (snd (email_test w body tr)) = notified tr ++ [recipient]).
Proof.
  intros Hset. unfold getenv in Hset.
  assert (Hnotify : forall to_email subject html tr0,
             notified (snd (send_notification w to_email subject html tr0)) =
               notified tr0 ++ [to_email]).
  { intros to_email subject html tr0.
    destruct (notify_emits w to_email subject html tr0) as (es & -> & Hes).
    rewrite notified_app.
    change (notified (EvCall F_notify to_email subject html :: es))
      with (to_email :: notified es).
    rewrite (notified_delivery _ Hes). reflexivity. }
  split.
  - intros payload lead_id Hid. rewrite contact_lead_run. cbn zeta. rewrite Hid.
    unfold getenv_or. rewrite Hset. cbn [default].
    transitivity (notified (snd (send_notification w recipient
                    (lead_subject (model_dump payload))
                    (lead_html (model_dump payload) lead_id)
                    (tr ++ [EvCreateDocument "contactlead" (model_dump payload)])))).
    { destruct (send_notification _ _ _ _ _) as [[sent|e] tr']; reflexivity. }
    rewrite Hnotify, notified_app.
    change (notified [EvCreateDocument "contactlead" (model_dump payload)])
      with (@nil string).
    rewrite app_nil_r. reflexivity.
  - intros body Hto. rewrite email_test_run. cbn zeta.
    unfold getenv_or. rewrite Hset.
    change (default default_recipient (Some recipient)) with recipient.
    assert (Hrcpt : opt_or (to body) recipient = recipient)
      by (destruct (to body) as [[|c s]|]; try discriminate Hto; reflexivity).
    rewrite Hrcpt.
    rewrite <- Hnotify with (subject := "Test: Email configuration"%string)
                            (html := email_test_html).
    destruct (send_notification _ _ _ _ _) as [[sent|e] tr']; reflexivity.
Qed.

Lemma X14_email_to_taken_verbatim_witness :
  notified (snd (create_contact_lead w_empty_email_to lead_A [])) =
    [EmptyString] /\
  notified (snd (email_test w_empty_email_to (mkEmailTest None) [])) =
    [EmptyString].
Proof.
  destruct (X14_email_to_taken_verbatim w_empty_email_to [] EmptyString
              ltac:(reflexivity)) as [Hlead Htest].
  split.
  - apply (Hlead lead_A "L1"%string). reflexivity.
  - apply (Htest (mkEmailTest None)). reflexivity.
Defined.




(** ** The diagnostic endpoint *)

(** X16 — configuration indicators come from the environment alone.
    Whatever the database module does, the fields database_url and
    database_name of the report say only whether DATABASE_URL and
    DATABASE_NAME are set and non-empty; the values written while the
    database was probed, among them the name of the database, are
    overwritten. *)
Theorem X16_probe_config_from_env (w : world)
    (import_db : outcome (option db_handle)) :
  test_database w import_db !! "database_url" =
    Some (RStr (if truthy (getenv w "DATABASE_URL")
                then "✅ Set" else "❌ Not Set")%string) /\
  test_database w import_db !! "database_name" =
    Some (RStr (if truthy (getenv w "DATABASE_NAME")
                then "✅ Set" else "❌ Not Set")%string) /\
  test_database w import_db !! "backend" = Some (RStr "✅ Running").
Proof.
  unfold test_database.
  destruct import_db as [[db|]|e];
    [destruct (list_collection_names db)| |destruct (is_ImportError w e)];
    repeat split.
Qed.

(** X17 — a bounded listing.  The report always carries a list under
    collections, of at most ten names: the first ten of the listing when
    the database answers, and none in every other case. *)
Theorem X17_probe_collections_bounded (w : world)
    (import_db : outcome (option db_handle)) :
  exists shown,
    test_database w import_db !! "collections" = Some (RList shown) /\
    (length shown <= 10)%nat /\
    shown = match import_db with
            | Returns (Some db) =>
                match list_collection_names db with
                | Returns listing => take 10 listing
                | Raises _ => []
                end
            | _ => []
            end.
Proof.
  unfold test_database.
  destruct import_db as [[db|]|e];
    [destruct (list_collection_names db) as [listing|]| |destruct (is_ImportError w e)];
    eexists; (split; [reflexivity|]); (split; [|reflexivity]);
    first [rewrite length_take; lia | cbn; lia].
Qed.

(** X18 — a truncated error detail.  When the listing of collections
    raises, or the import raises something that is not an ImportError, the
    database field shows a fixed lead followed by the first 50 characters
    of the error text, or all of it when it has fewer: the detail is the
    prefix of the text that ends between two characters and holds that
    many. *)
Theorem X18_probe_error_detail (w : world)
    (import_db : outcome (option db_handle)) (e : exn) :
  (import_db = Raises e /\ is_ImportError w e = false) \/
  (exists db, import_db = Returns (Some db) /\
              list_collection_names db = Raises e) ->
  exists detail rest,
    test_database w import_db !! "database" =
      Some (RStr ((match import_db with
                   | Raises _ => "❌ Error: "
                   | Returns _ => "⚠️  Connected but Error: "
                   end) ++ detail)%string) /\
    exn_str e = (detail ++ rest)%string /\
    at_boundary rest = true /\
    char_length detail = Nat.min 50 (char_length (exn_str e)).
Proof.
  destruct (slice_to_split 50 (exn_str e)) as (rest & Hsplit & Hb).
  unfold test_database.
  intros [[-> Hother]|(db & -> & Hlist)]; [rewrite Hother|rewrite Hlist];
    exists (slice_to 50 (exn_str e)), rest;
    (split; [reflexivity|]); (split; [exact Hsplit|]); (split; [exact Hb|]);
    apply slice_to_char_length.
Qed.

(** An import that fails with an error of the module's own, whose text is
    longer than 50 characters and not all ASCII. *)
Lemma X18_probe_error_detail_witness :
  exists detail rest,
    test_database w_none import_misconfigured !! "database" =
      Some (RStr ("❌ Error: " ++ detail)%string) /\
    "DATABASE_URL is not a valid MongoDB URI: «mongo://»; expected mongodb:// or mongodb+srv://"%string =
      (detail ++ rest)%string /\
    at_boundary rest = true /\
    char_length detail = 50%nat.
Proof.
  apply (X18_probe_error_detail w_none import_misconfigured
           (Exn "ConfigurationError"
                "DATABASE_URL is not a valid MongoDB URI: «mongo://»; expected mongodb:// or mongodb+srv://")).
  left. split; reflexivity.
Defined.

(** What is shown there: fifty characters, which are fifty-one bytes. *)
Example misconfigured_detail_shown :
  test_database w_none import_misconfigured !! "database" =
    Some (RStr "❌ Error: DATABASE_URL is not a valid MongoDB URI: «mongo://") /\
  String.length "DATABASE_URL is not a valid MongoDB URI: «mongo://" = 51%nat.
Proof. split; reflexivity. Qed.

(** X19 — shape of the report.  The report has the same six keys in
    every case, and connection_status reads Connected exactly when the
    import gave a database object, even if listing its collections then
    failed. *)
Theorem X19_probe_shape (w : world) (import_db : outcome (option db_handle)) :
  dom (test_database w import_db) =
    ({["backend"; "database"; "database_url"; "database_name";
       "connection_status"; "collections"]} : gset string) /\
  (test_database w import_db !! "connection_status" = Some (RStr "Connected") <->
   exists db, import_db = Returns (Some db)) /\
  (test_database w import_db !! "connection_status" <> Some (RStr "Connected") ->
   test_database w import_db !! "connection_status" = Some (RStr "Not Connected")).
Proof.
  unfold test_database.
  destruct import_db as [[db|]|e];
    [destruct (list_collection_names db)| |destruct (is_ImportError w e)];
    (split; [reflexivity|]); split;
    try (split; [intros _; eauto | intros _; reflexivity]);
    try (split; [discriminate | intros (db' & Hdb); discriminate Hdb]);
    try (intros H; exfalso; apply H; reflexivity);
    try (intros _; reflexivity).
Qed.

(** Twelve collections in the database, ten in the report. *)
Example probe_shows_ten_of_twelve :
  test_database w_none (Returns (Some db_twelve)) !! "collections" =
    Some (RList ["c01"; "c02"; "c03"; "c04"; "c05";
                 "c06"; "c07"; "c08"; "c09"; "c10"]) /\
  test_database w_none (Returns (Some db_twelve)) !! "database" =
    Some (RStr "✅ Connected & Working").
Proof. split; reflexivity. Qed.

(** A database that is there but does not answer: the report says
    connected, with the first fifty characters of the error. *)
Example probe_unreachable_database :
  test_database w_none (Returns (Some db_unreachable)) !! "database" =
    Some (RStr "⚠️  Connected but Error: localhost:27017: [Errno 111] Connection refused, T") /\
  test_database w_none (Returns (Some db_unreachable)) !! "connection_status" =
    Some (RStr "Connected").
Proof. split; reflexivity. Qed.

(** The store is down: the lead handler answers 500 and nothing but the
    attempt to store has happened. *)
Example store_down_answers_500 :
  create_contact_lead w_store_down lead_A [] =
    (Returns (HTTPException 500 "Database not available"),
     [EvCreateDocument "contactlead" (model_dump lead_A)]).
Proof. reflexivity. Qed.
